(** * rosbasesink: the shared base class of the ROS 2 / GStreamer sink bridges

    A shallow embedding of [gst_bridge/src/rosbasesink.cpp].  The element
    instance is a record, every entry point of the class is a function in a
    small state-and-fault monad over that record, and the calls that leave
    the file (logging, rclcpp, the subclass hooks, the parent class) are
    recorded, in program order, in a trace. *)

From Stdlib Require Import ZArith List String Bool Lia.
Import ListNotations.

Local Open Scope Z_scope.

(** ** GLib and GStreamer scalar types *)

Module Glib.

(** [gboolean]; [TRUE] and [FALSE]. *)
Definition gboolean := bool.

(** [guint64]: the value reduced modulo 2^64. *)
Definition to_guint64 (z : Z) : Z := z mod 2 ^ 64.

(** [gint64]: conversion of a 64-bit pattern to the signed reading. *)
Definition to_gint64 (z : Z) : Z := (z + 2 ^ 63) mod 2 ^ 64 - 2 ^ 63.

Definition is_guint64 (z : Z) : Prop := 0 <= z < 2 ^ 64.
Definition is_gint64 (z : Z) : Prop := - 2 ^ 63 <= z < 2 ^ 63.

(** [a + b] where one operand is [guint64] and the other [gint64]: the
    signed operand is converted to [guint64] and the sum wraps. *)
Definition guint64_add (a b : Z) : Z := to_guint64 (to_guint64 a + to_guint64 b).

(** A [gchar *]: [None] is the NULL pointer. *)
Definition gchar_p := option string.

End Glib.
Export Glib.

Module Gst.

Definition GstClockTime := Z.      (* guint64 *)
Definition GstClockTimeDiff := Z.  (* gint64 *)
Definition GST_CLOCK_TIME_NONE : GstClockTime := 2 ^ 64 - 1.

Inductive GstState :=
| GST_STATE_NULL | GST_STATE_READY | GST_STATE_PAUSED | GST_STATE_PLAYING.

Inductive GstStateChange :=
| GST_STATE_CHANGE_NULL_TO_READY
| GST_STATE_CHANGE_READY_TO_PAUSED
| GST_STATE_CHANGE_PAUSED_TO_PLAYING
| GST_STATE_CHANGE_PLAYING_TO_PAUSED
| GST_STATE_CHANGE_PAUSED_TO_READY
| GST_STATE_CHANGE_READY_TO_NULL
| GST_STATE_CHANGE_NULL_TO_NULL
| GST_STATE_CHANGE_READY_TO_READY
| GST_STATE_CHANGE_PAUSED_TO_PAUSED
| GST_STATE_CHANGE_PLAYING_TO_PLAYING.

Inductive GstStateChangeReturn :=
| GST_STATE_CHANGE_FAILURE
| GST_STATE_CHANGE_SUCCESS
| GST_STATE_CHANGE_ASYNC
| GST_STATE_CHANGE_NO_PREROLL.

Inductive GstFlowReturn :=
| GST_FLOW_OK
| GST_FLOW_NOT_LINKED
| GST_FLOW_FLUSHING
| GST_FLOW_EOS
| GST_FLOW_NOT_NEGOTIATED
| GST_FLOW_ERROR
| GST_FLOW_NOT_SUPPORTED.

(** [GST_STATE_TRANSITION_CURRENT] and [GST_STATE_TRANSITION_NEXT]. *)
Definition transition_current (tr : GstStateChange) : GstState :=
  match tr with
  | GST_STATE_CHANGE_NULL_TO_READY | GST_STATE_CHANGE_NULL_TO_NULL => GST_STATE_NULL
  | GST_STATE_CHANGE_READY_TO_PAUSED | GST_STATE_CHANGE_READY_TO_NULL
  | GST_STATE_CHANGE_READY_TO_READY => GST_STATE_READY
  | GST_STATE_CHANGE_PAUSED_TO_PLAYING | GST_STATE_CHANGE_PAUSED_TO_READY
  | GST_STATE_CHANGE_PAUSED_TO_PAUSED => GST_STATE_PAUSED
  | GST_STATE_CHANGE_PLAYING_TO_PAUSED | GST_STATE_CHANGE_PLAYING_TO_PLAYING =>
      GST_STATE_PLAYING
  end.

Definition transition_next (tr : GstStateChange) : GstState :=
  match tr with
  | GST_STATE_CHANGE_READY_TO_NULL | GST_STATE_CHANGE_NULL_TO_NULL => GST_STATE_NULL
  | GST_STATE_CHANGE_NULL_TO_READY | GST_STATE_CHANGE_PAUSED_TO_READY
  | GST_STATE_CHANGE_READY_TO_READY => GST_STATE_READY
  | GST_STATE_CHANGE_READY_TO_PAUSED | GST_STATE_CHANGE_PLAYING_TO_PAUSED
  | GST_STATE_CHANGE_PAUSED_TO_PAUSED => GST_STATE_PAUSED
  | GST_STATE_CHANGE_PAUSED_TO_PLAYING | GST_STATE_CHANGE_PLAYING_TO_PLAYING =>
      GST_STATE_PLAYING
  end.

Definition GstState_eqb (a b : GstState) : bool :=
  match a, b with
  | GST_STATE_NULL, GST_STATE_NULL | GST_STATE_READY, GST_STATE_READY
  | GST_STATE_PAUSED, GST_STATE_PAUSED | GST_STATE_PLAYING, GST_STATE_PLAYING => true
  | _, _ => false
  end.

(** An opaque handle on a pipeline clock. *)
Definition GstClock := nat.

(** The part of the parent instance ([GstElement] inside [GstBaseSink])
    that this file reads: [GST_STATE], the base time and
    [GST_ELEMENT_CLOCK]. *)
Record GstElement := {
  current_state : GstState;
  base_time : GstClockTime;
  element_clock : option GstClock
}.

Definition gst_element_get_base_time (e : GstElement) : GstClockTime := base_time e.

(** Caps are kept in their string form (as in [GST_STATIC_CAPS]). *)
Definition GstCaps := string.

Record GstBuffer := {
  pts : GstClockTime;          (* GST_BUFFER_PTS *)
  payload : list Z
}.

End Gst.
Export Gst.

(** ** The part of rclcpp the sink touches *)

Module Rclcpp.

Inductive rcl_clock_type_t :=
| RCL_CLOCK_UNINITIALIZED | RCL_ROS_TIME | RCL_SYSTEM_TIME | RCL_STEADY_TIME.

(** [rclcpp::Context]: what matters is whether it is valid (initialised and
    not shut down). *)
Record Context := { is_valid : bool }.

Record Node := { get_name : string; get_namespace : string }.

Record Clock := { get_clock_type : rcl_clock_type_t }.

Record Logger := { logger_name : string }.

(** [rclcpp::Time(int64_t nanoseconds, rcl_clock_type_t)]: the count is
    stored as it is given. *)
Record Time := { nanoseconds : Z; time_clock_type : rcl_clock_type_t }.

Inductive Severity := SEV_DEBUG | SEV_INFO | SEV_WARN | SEV_ERROR | SEV_FATAL.

(** [Context::shutdown]: the context stops being valid. *)
Definition shutdown (c : Context) : Context := {| is_valid := false |}.

End Rclcpp.

(** ** The element instance and its class *)

(** [struct _RosBaseSink] (declared in [gst_bridge/rosbasesink.h]).  The
    instance memory is zero-filled by GObject, so every smart pointer starts
    out null; [logger] is [None] until it is first assigned. *)
Record RosBaseSink := {
  parent : GstElement;
  node_name : gchar_p;
  node_namespace : gchar_p;
  ros_context : option Rclcpp.Context;
  node : option Rclcpp.Node;
  logger : option Rclcpp.Logger;
  clock : option Rclcpp.Clock;
  ros_clock_offset : GstClockTimeDiff
}.

Definition set_node_name (v : gchar_p) (s : RosBaseSink) : RosBaseSink :=
  {| parent := parent s; node_name := v; node_namespace := node_namespace s;
     ros_context := ros_context s; node := node s; logger := logger s;
     clock := clock s; ros_clock_offset := ros_clock_offset s |}.

Definition set_node_namespace (v : gchar_p) (s : RosBaseSink) : RosBaseSink :=
  {| parent := parent s; node_name := node_name s; node_namespace := v;
     ros_context := ros_context s; node := node s; logger := logger s;
     clock := clock s; ros_clock_offset := ros_clock_offset s |}.

Definition set_ros_context (v : option Rclcpp.Context) (s : RosBaseSink) : RosBaseSink :=
  {| parent := parent s; node_name := node_name s; node_namespace := node_namespace s;
     ros_context := v; node := node s; logger := logger s;
     clock := clock s; ros_clock_offset := ros_clock_offset s |}.

Definition set_node (v : option Rclcpp.Node) (s : RosBaseSink) : RosBaseSink :=
  {| parent := parent s; node_name := node_name s; node_namespace := node_namespace s;
     ros_context := ros_context s; node := v; logger := logger s;
     clock := clock s; ros_clock_offset := ros_clock_offset s |}.

Definition set_logger (v : option Rclcpp.Logger) (s : RosBaseSink) : RosBaseSink :=
  {| parent := parent s; node_name := node_name s; node_namespace := node_namespace s;
     ros_context := ros_context s; node := node s; logger := v;
     clock := clock s; ros_clock_offset := ros_clock_offset s |}.

Definition set_clock (v : option Rclcpp.Clock) (s : RosBaseSink) : RosBaseSink :=
  {| parent := parent s; node_name := node_name s; node_namespace := node_namespace s;
     ros_context := ros_context s; node := node s; logger := logger s;
     clock := v; ros_clock_offset := ros_clock_offset s |}.

Definition set_ros_clock_offset (v : GstClockTimeDiff) (s : RosBaseSink) : RosBaseSink :=
  {| parent := parent s; node_name := node_name s; node_namespace := node_namespace s;
     ros_context := ros_context s; node := node s; logger := logger s;
     clock := clock s; ros_clock_offset := v |}.

Definition set_parent (v : GstElement) (s : RosBaseSink) : RosBaseSink :=
  {| parent := v; node_name := node_name s; node_namespace := node_namespace s;
     ros_context := ros_context s; node := node s; logger := logger s;
     clock := clock s; ros_clock_offset := ros_clock_offset s |}.

(** [struct _RosBaseSinkClass]: the table of subclass hooks.  A hook is a
    function pointer ([None] when the subclass left it NULL); it receives the
    instance and may change it. *)
Record RosBaseSinkClass := {
  open : option (RosBaseSink -> gboolean * RosBaseSink);
  close : option (RosBaseSink -> gboolean * RosBaseSink);
  set_caps : option (RosBaseSink -> GstCaps -> gboolean * RosBaseSink);
  get_caps : option (RosBaseSink -> option GstCaps -> option GstCaps * RosBaseSink);
  query : option (RosBaseSink -> nat -> gboolean * RosBaseSink);
  render : option (RosBaseSink -> GstBuffer -> Rclcpp.Time -> GstFlowReturn * RosBaseSink)
}.

(** [enum { PROP_0, PROP_ROS_NAME, PROP_ROS_NAMESPACE }]. *)
Definition PROP_0 : N := 0%N.
Definition PROP_ROS_NAME : N := 1%N.
Definition PROP_ROS_NAMESPACE : N := 2%N.

(** ** What the code does to the outside, in program order *)

(** A call through the class's table of hooks, with its arguments (the
    instance apart). *)
Inductive Hook :=
| HOpen
| HClose
| HSetCaps (caps : GstCaps)
| HGetCaps (filter : option GstCaps)
| HQuery (q : nat)
| HRender (buf : GstBuffer) (msg_time : Rclcpp.Time).

Inductive Event :=
| GstDebug (msg : string)                       (* GST_DEBUG_OBJECT *)
| RclcppLog (sev : Rclcpp.Severity) (lg : option Rclcpp.Logger) (msg : string)
| WarnInvalidPropertyId (property_id : N)       (* G_OBJECT_WARN_INVALID_PROPERTY_ID *)
| InitContext                                   (* ros_context->init(0, NULL) *)
| NodeCreated (name ns : string)                (* make_shared<rclcpp::Node> *)
| HookCalled (h : Hook)                         (* sink_class->h (sink, ...) *)
| ParentChangeState (tr : GstStateChange)       (* chaining up to the parent class *)
| ClockSampled (offset : GstClockTimeDiff)      (* gst_bridge::sample_clock_offset *)
| ClockDropped                                  (* sink->clock.reset() *)
| NodeDropped                                   (* sink->node.reset() *)
| ShutdownContext (reason : string).            (* ros_context->shutdown(reason) *)

(** The ways a call can fail to return: a C++ exception that nothing in the
    file catches, or the dereference of a null smart pointer. *)
Inductive Fault :=
| CxxException (what : string)
| NullDereference (what : string).

Record World := {
  sink : RosBaseSink;
  trace : list Event
}.

Inductive Outcome (A : Type) :=
| Ret (a : A) (w : World)
| Stop (f : Fault) (w : World).
Arguments Ret {A} a w.
Arguments Stop {A} f w.

(** The state-and-fault monad of the embedding. *)
Definition M (A : Type) := World -> Outcome A.

Definition ret {A} (a : A) : M A := fun w => Ret a w.

Definition bind {A B} (m : M A) (k : A -> M B) : M B :=
  fun w => match m w with
           | Ret a w' => k a w'
           | Stop f w' => Stop f w'
           end.

Declare Scope sink_scope.
Delimit Scope sink_scope with sink.
Notation "x <- m ;; k" := (bind m (fun x => k))
  (at level 61, m at next level, right associativity) : sink_scope.
Notation "m ;; k" := (bind m (fun _ => k))
  (at level 61, right associativity) : sink_scope.
Local Open Scope sink_scope.

Definition throw {A} (f : Fault) : M A := fun w => Stop f w.

Definition get_sink : M RosBaseSink := fun w => Ret (sink w) w.

Definition modify_sink (f : RosBaseSink -> RosBaseSink) : M unit :=
  fun w => Ret tt {| sink := f (sink w); trace := trace w |}.

Definition emit (e : Event) : M unit :=
  fun w => Ret tt {| sink := sink w; trace := trace w ++ [e] |}.

(** The logical instant of a call out of the file: the number of events
    recorded so far. *)
Definition now : M nat := fun w => Ret (List.length (trace w)) w.

(** Calling through a hook pointer: the hook runs on the instance. *)
Definition call_hook {A} (h : Hook) (f : RosBaseSink -> A * RosBaseSink) : M A :=
  fun w => let r := f (sink w) in
           Ret (fst r) {| sink := snd r; trace := trace w ++ [HookCalled h] |}.

Definition GST_DEBUG_OBJECT (msg : string) : M unit := emit (GstDebug msg).

Definition RCLCPP_ERROR (msg : string) : M unit :=
  s <- get_sink ;; emit (RclcppLog Rclcpp.SEV_ERROR (logger s) msg).

Definition RCLCPP_WARN (msg : string) : M unit :=
  s <- get_sink ;; emit (RclcppLog Rclcpp.SEV_WARN (logger s) msg).

(** [std::string(p)] for a [gchar *]: undefined on NULL (libstdc++ throws
    [std::logic_error]). *)
Definition std_string (p : gchar_p) : M string :=
  match p with
  | Some str => ret str
  | None => throw (CxxException "basic_string: construction from null")
  end.

(** ** What the sink needs from its surroundings

    The rclcpp runtime, the sibling translation unit [gst_bridge.cpp]
    ([sample_clock_offset]) and the parent class [GstBaseSink] are not part
    of this file.  They are taken as parameters; the [nat] argument is the
    logical instant of the call, so that two calls may answer differently. *)
Record Runtime := {
  (* whether [Context::init] returns (it throws otherwise) *)
  context_init_ok : nat -> bool;
  (* whether the [rclcpp::Node] constructor returns (it throws otherwise) *)
  node_create_ok : nat -> string -> string -> bool;
  node_get_logger : Rclcpp.Node -> Rclcpp.Logger;
  node_get_clock : Rclcpp.Node -> Rclcpp.Clock;
  (* [gst_bridge::sample_clock_offset (gst_clock, ros_clock)] *)
  sample_clock_offset :
    nat -> option GstClock -> option Rclcpp.Clock -> GstClockTimeDiff;
  (* [GST_ELEMENT_CLASS (rosbasesink_parent_class)->change_state] *)
  parent_change_state : nat -> GstElement -> GstStateChange -> GstStateChangeReturn
}.

(** ** The functions of rosbasesink.cpp *)

Section RosBaseSinkCode.

Variable rt : Runtime.
Variable sink_class : RosBaseSinkClass.

(** [rosbasesink_init]. *)
Definition rosbasesink_init : M unit :=
  modify_sink (set_node_name (Some "gst_base_sink_node"%string)) ;;
  modify_sink (set_node_namespace (Some EmptyString)).

(** [rosbasesink_set_property]; [value] is the string held by the
    [GValue] (NULL included). *)
Definition rosbasesink_set_property (property_id : N) (value : gchar_p) : M unit :=
  GST_DEBUG_OBJECT "set_property" ;;
  if (property_id =? PROP_ROS_NAME)%N then
    s <- get_sink ;;
    match node s with
    | Some _ => RCLCPP_ERROR "can't change node name once openned"
    | None => modify_sink (set_node_name value)
    end
  else if (property_id =? PROP_ROS_NAMESPACE)%N then
    s <- get_sink ;;
    match node s with
    | Some _ => RCLCPP_ERROR "can't change node namespace once openned"
    | None => modify_sink (set_node_namespace value)
    end
  else
    emit (WarnInvalidPropertyId property_id).

(** [rosbasesink_get_property]; [None] when the [GValue] is left as it
    was. *)
Definition rosbasesink_get_property (property_id : N) : M (option gchar_p) :=
  GST_DEBUG_OBJECT "get_property" ;;
  s <- get_sink ;;
  if (property_id =? PROP_ROS_NAME)%N then ret (Some (node_name s))
  else if (property_id =? PROP_ROS_NAMESPACE)%N then ret (Some (node_namespace s))
  else emit (WarnInvalidPropertyId property_id) ;; ret None.

(** [rosbasesink_open]. *)
Definition rosbasesink_open : M gboolean :=
  GST_DEBUG_OBJECT "open" ;;
  modify_sink (set_ros_context (Some {| Rclcpp.is_valid := false |})) ;;
  t <- now ;;
  (if context_init_ok rt t
   then modify_sink (set_ros_context (Some {| Rclcpp.is_valid := true |})) ;;
        emit InitContext
   else throw (CxxException "rclcpp::Context::init")) ;;
  s <- get_sink ;;
  name <- std_string (node_name s) ;;
  ns <- std_string (node_namespace s) ;;
  t <- now ;;
  (if node_create_ok rt t name ns
   then modify_sink
          (set_node (Some {| Rclcpp.get_name := name; Rclcpp.get_namespace := ns |})) ;;
        emit (NodeCreated name ns)
   else throw (CxxException "rclcpp::Node::Node")) ;;
  (* allow sub-class to create publishers on sink->node *)
  result <- match open sink_class with
            | Some h => call_hook HOpen h
            | None => ret true
            end ;;
  s <- get_sink ;;
  match node s with
  | None => throw (NullDereference "sink->node")
  | Some n =>
      modify_sink (set_logger (Some (node_get_logger rt n))) ;;
      modify_sink (set_clock (Some (node_get_clock rt n))) ;;
      ret result
  end.

(** [rosbasesink_close]. *)
Definition rosbasesink_close : M gboolean :=
  GST_DEBUG_OBJECT "close" ;;
  modify_sink (set_clock None) ;;
  emit ClockDropped ;;
  (* allow sub-class to clean up before destroying ros context *)
  result <- match close sink_class with
            | Some h => call_hook HClose h
            | None => ret true
            end ;;
  modify_sink (set_node None) ;;
  emit NodeDropped ;;
  s <- get_sink ;;
  match ros_context s with
  | None => throw (NullDereference "sink->ros_context")
  | Some c =>
      modify_sink (set_ros_context (Some (Rclcpp.shutdown c))) ;;
      emit (ShutdownContext "gst closing rosbasesink") ;;
      ret result
  end.

(** The first [switch] of [rosbasesink_change_state]: [Some r] is the early
    [return r]. *)
Definition change_state_upwards (transition : GstStateChange)
  : M (option GstStateChangeReturn) :=
  match transition with
  | GST_STATE_CHANGE_NULL_TO_READY =>
      opened <- rosbasesink_open ;;
      if negb opened
      then GST_DEBUG_OBJECT "open failed" ;; ret (Some GST_STATE_CHANGE_FAILURE)
      else ret None
  | GST_STATE_CHANGE_PAUSED_TO_PLAYING =>
      t <- now ;;
      s <- get_sink ;;
      let offset := sample_clock_offset rt t (element_clock (parent s)) (clock s) in
      emit (ClockSampled offset) ;;
      modify_sink (set_ros_clock_offset offset) ;;
      ret None
  | _ => ret None
  end.

(** Chaining up: [GST_ELEMENT_CLASS (rosbasesink_parent_class)->change_state]. *)
Definition chain_up (transition : GstStateChange) : M GstStateChangeReturn :=
  t <- now ;;
  s <- get_sink ;;
  emit (ParentChangeState transition) ;;
  ret (parent_change_state rt t (parent s) transition).

(** The second [switch] of [rosbasesink_change_state]. *)
Definition change_state_downwards (transition : GstStateChange) : M unit :=
  match transition with
  | GST_STATE_CHANGE_READY_TO_NULL => rosbasesink_close ;; ret tt
  | _ => ret tt
  end.

(** [rosbasesink_change_state]. *)
Definition rosbasesink_change_state (transition : GstStateChange)
  : M GstStateChangeReturn :=
  early <- change_state_upwards transition ;;
  match early with
  | Some r => ret r
  | None =>
      r <- chain_up transition ;;
      change_state_downwards transition ;;
      ret r
  end.

(** [rosbasesink_setcaps]. *)
Definition rosbasesink_setcaps (caps : GstCaps) : M gboolean :=
  match set_caps sink_class with
  | Some h => call_hook (HSetCaps caps) (fun s => h s caps)
  | None => ret false
  end.

(** [rosbasesink_getcaps]; the hook's own return value is dropped. *)
Definition rosbasesink_getcaps (filter : option GstCaps) : M (option GstCaps) :=
  match get_caps sink_class with
  | Some h => call_hook (HGetCaps filter) (fun s => h s filter) ;; ret filter
  | None => ret filter
  end.

(** [gst_alsasink_query]. *)
Definition gst_alsasink_query (q : nat) : M gboolean :=
  match query sink_class with
  | Some h => call_hook (HQuery q) (fun s => h s q)
  | None => ret false
  end.

(** The nanosecond count handed to [rclcpp::Time]:
    [GST_BUFFER_PTS (buf) + base_time + sink->ros_clock_offset], where
    [base_time] is a [GstClockTimeDiff] holding the element's base time.
    The additions are done in [guint64] and the sum is passed as
    [int64_t]. *)
Definition msg_time_nanoseconds (s : RosBaseSink) (buf : GstBuffer) : Z :=
  let base_time := to_gint64 (gst_element_get_base_time (parent s)) in
  to_gint64 (guint64_add (guint64_add (pts buf) base_time) (ros_clock_offset s)).

(** [rosbasesink_render]. *)
Definition rosbasesink_render (buf : GstBuffer) : M GstFlowReturn :=
  GST_DEBUG_OBJECT "render" ;;
  s <- get_sink ;;
  match clock s with
  | None => throw (NullDereference "sink->clock")
  | Some c =>
      let msg_time := {| Rclcpp.nanoseconds := msg_time_nanoseconds s buf;
                         Rclcpp.time_clock_type := Rclcpp.get_clock_type c |} in
      match render sink_class with
      | Some h => call_hook (HRender buf msg_time) (fun s => h s buf msg_time)
      | None =>
          match node s with
          | Some _ => RCLCPP_WARN "rosbasesink render function not set, dropping buffer"
          | None => ret tt
          end ;;
          ret GST_FLOW_OK
      end
  end.

(** *** The pipeline side

    How GStreamer drives the element: it calls the class's [change_state]
    and moves [GST_STATE] to the target of the transition unless the call
    reported [GST_STATE_CHANGE_FAILURE] (an asynchronous change is taken as
    completed). *)
Definition set_current_state (st : GstState) (s : RosBaseSink) : RosBaseSink :=
  set_parent {| current_state := st; base_time := base_time (parent s);
                element_clock := element_clock (parent s) |} s.

Definition gst_element_change_state (transition : GstStateChange)
  : M GstStateChangeReturn :=
  r <- rosbasesink_change_state transition ;;
  match r with
  | GST_STATE_CHANGE_FAILURE => ret r
  | _ => modify_sink (set_current_state (transition_next transition)) ;; ret r
  end.

(** A run of transition requests, one after the other. *)
Fixpoint run (transitions : list GstStateChange) : M (list GstStateChangeReturn) :=
  match transitions with
  | [] => ret []
  | tr :: rest =>
      r <- gst_element_change_state tr ;;
      rs <- run rest ;;
      ret (r :: rs)
  end.

End RosBaseSinkCode.

(** ** Vocabulary of the properties *)

(** The external connection of the sink: the ROS node, or a valid (initialised
    and not shut down) execution context. *)
Definition has_node (s : RosBaseSink) : bool :=
  match node s with Some _ => true | None => false end.

Definition has_valid_context (s : RosBaseSink) : bool :=
  match ros_context s with Some c => Rclcpp.is_valid c | None => false end.

Definition has_clock (s : RosBaseSink) : bool :=
  match clock s with Some _ => true | None => false end.

Definition external_connection (s : RosBaseSink) : bool :=
  has_node s || has_valid_context s.

(** The window in which the connection is meant to exist. *)
Definition in_window (st : GstState) : bool :=
  match st with
  | GST_STATE_NULL => false
  | GST_STATE_READY | GST_STATE_PAUSED | GST_STATE_PLAYING => true
  end.

Definition connection_invariant (s : RosBaseSink) : Prop :=
  external_connection s = in_window (current_state (parent s)).

(** A hook that leaves the base instance as it found it (it works on the
    subclass's own members, which are not part of [RosBaseSink]). *)
Definition keeps_instance {A} (h : RosBaseSink -> A * RosBaseSink) : Prop :=
  forall s, snd (h s) = s.

Definition open_keeps_instance (k : RosBaseSinkClass) : Prop :=
  match open k with Some h => keeps_instance h | None => True end.

Definition close_keeps_instance (k : RosBaseSinkClass) : Prop :=
  match close k with Some h => keeps_instance h | None => True end.

Definition get_caps_keeps_instance (k : RosBaseSinkClass) : Prop :=
  match get_caps k with
  | Some h => forall filter, keeps_instance (fun s => h s filter)
  | None => True
  end.

(** The identity properties of the element. *)
Definition is_identity_property (property_id : N) : bool :=
  ((property_id =? PROP_ROS_NAME) || (property_id =? PROP_ROS_NAMESPACE))%N.

Definition identity_property (property_id : N) (s : RosBaseSink) : gchar_p :=
  if (property_id =? PROP_ROS_NAME)%N then node_name s else node_namespace s.

Definition rejection_message (property_id : N) : string :=
  if (property_id =? PROP_ROS_NAME)%N
  then "can't change node name once openned"%string
  else "can't change node namespace once openned"%string.

(** Every field of the instance other than the identity property
    [property_id] is the same in [s] and [s']. *)
Definition same_but_property (property_id : N) (s s' : RosBaseSink) : Prop :=
  parent s' = parent s /\
  ((property_id =? PROP_ROS_NAME)%N = false -> node_name s' = node_name s) /\
  ((property_id =? PROP_ROS_NAMESPACE)%N = false -> node_namespace s' = node_namespace s) /\
  ros_context s' = ros_context s /\
  node s' = node s /\
  logger s' = logger s /\
  clock s' = clock s /\
  ros_clock_offset s' = ros_clock_offset s.

(** The events of a trace that take or give back a resource of the
    connection, and the release that undoes an acquisition. *)
Inductive Resource := Endpoints | TheNode | TheContext.

Definition acquired (e : Event) : option Resource :=
  match e with
  | InitContext => Some TheContext
  | NodeCreated _ _ => Some TheNode
  | HookCalled HOpen => Some Endpoints
  | _ => None
  end.

Definition released (e : Event) : option Resource :=
  match e with
  | ShutdownContext _ => Some TheContext
  | NodeDropped => Some TheNode
  | HookCalled HClose => Some Endpoints
  | _ => None
  end.

Fixpoint pick {A B} (f : A -> option B) (l : list A) : list B :=
  match l with
  | [] => []
  | a :: l' => match f a with Some b => b :: pick f l' | None => pick f l' end
  end.

(** The offsets sampled along a trace, oldest first. *)
Definition sampled (e : Event) : option GstClockTimeDiff :=
  match e with ClockSampled v => Some v | _ => None end.

Definition samples (tr : list Event) : list GstClockTimeDiff := pick sampled tr.

(** The transitions in which the file does nothing of its own. *)
Definition passes_through (tr : GstStateChange) : bool :=
  match tr with
  | GST_STATE_CHANGE_NULL_TO_READY | GST_STATE_CHANGE_PAUSED_TO_PLAYING
  | GST_STATE_CHANGE_READY_TO_NULL => false
  | _ => true
  end.

(** Calling through a hook pointer that may be NULL: the result defaults to
    TRUE, as [gboolean result = TRUE] in [rosbasesink_open] and
    [rosbasesink_close]. *)
Definition run_hook (h : option (RosBaseSink -> gboolean * RosBaseSink))
    (s : RosBaseSink) : gboolean * RosBaseSink :=
  match h with Some f => f s | None => (true, s) end.

Definition hook_event (ev : Hook) (h : option (RosBaseSink -> gboolean * RosBaseSink))
  : list Event :=
  match h with Some _ => [HookCalled ev] | None => [] end.

(** The order in which [rosbasesink_open] takes the resources of the
    connection. *)
Definition acquisition_order : list Resource := [TheContext; TheNode; Endpoints].

(** The world once the pipeline has taken note of what a state change
    returned. *)
Definition committed (tr : GstStateChange) (r : GstStateChangeReturn) (w : World)
  : World :=
  match r with
  | GST_STATE_CHANGE_FAILURE => w
  | _ => {| sink := set_current_state (transition_next tr) (sink w); trace := trace w |}
  end.

Definition failed (r : GstStateChangeReturn) : bool :=
  match r with GST_STATE_CHANGE_FAILURE => true | _ => false end.

(** A run of requests follows the lattice when each one starts from the
    state the previous one led to. *)
Fixpoint respects_lattice (st : GstState) (transitions : list GstStateChange) : bool :=
  match transitions with
  | [] => true
  | tr :: rest =>
      GstState_eqb (transition_current tr) st && respects_lattice (transition_next tr) rest
  end.

(** Inside the window the node and a valid context are both there; outside,
    neither is. *)
Definition lifecycle_ok (s : RosBaseSink) : Prop :=
  if in_window (current_state (parent s))
  then has_node s = true /\ has_valid_context s = true
  else has_node s = false /\ has_valid_context s = false.

(** What a call returned, and the instance it left, when it returned. *)
Definition returned {A} (o : Outcome A) : option A :=
  match o with Ret a _ => Some a | Stop _ _ => None end.

Definition final_sink {A} (o : Outcome A) : option RosBaseSink :=
  match o with Ret _ w => Some (sink w) | Stop _ _ => None end.

(** The class with its [close] hook replaced. *)
Definition with_close (h : option (RosBaseSink -> gboolean * RosBaseSink))
    (k : RosBaseSinkClass) : RosBaseSinkClass :=
  {| open := open k; close := h; set_caps := set_caps k; get_caps := get_caps k;
     query := query k; render := render k |}.

(** The world a call left behind, whether it returned or not. *)
Definition final_world {A} (o : Outcome A) : World :=
  match o with Ret _ w => w | Stop _ w => w end.

(** The calls to the parent class along a trace. *)
Definition chained (e : Event) : option GstStateChange :=
  match e with ParentChangeState tr => Some tr | _ => None end.

Definition is_playing_entry (tr : GstStateChange) : bool :=
  match tr with GST_STATE_CHANGE_PAUSED_TO_PLAYING => true | _ => false end.

(** The state a run of requests leads to when it follows the lattice. *)
Definition path_end (st : GstState) (transitions : list GstStateChange) : GstState :=
  fold_left (fun _ tr => transition_next tr) transitions st.

(** Setting both identity properties, then opening. *)
Definition configure_and_open (rt : Runtime) (k : RosBaseSinkClass)
    (name ns : gchar_p) : M gboolean :=
  rosbasesink_set_property PROP_ROS_NAME name ;;
  rosbasesink_set_property PROP_ROS_NAMESPACE ns ;;
  rosbasesink_open rt k.

(** ** Sample surroundings, classes and instances *)

(** A runtime in which nothing fails; the n-th event's clock sample is
    [1000 + n]. *)
Definition quiet_runtime : Runtime :=
  {| context_init_ok := fun _ => true;
     node_create_ok := fun _ _ _ => true;
     node_get_logger := fun n => {| Rclcpp.logger_name := Rclcpp.get_name n |};
     node_get_clock := fun _ => {| Rclcpp.get_clock_type := Rclcpp.RCL_ROS_TIME |};
     sample_clock_offset := fun t _ _ => 1000 + Z.of_nat t;
     parent_change_state := fun _ _ _ => GST_STATE_CHANGE_SUCCESS |}.

(** A class with no hook at all, as [rosbasesink_class_init] leaves it. *)
Definition bare_class : RosBaseSinkClass :=
  {| open := None; close := None; set_caps := None; get_caps := None;
     query := None; render := None |}.

(** A subclass whose hooks all succeed and leave the base instance alone. *)
Definition plain_class : RosBaseSinkClass :=
  {| open := Some (fun s => (true, s));
     close := Some (fun s => (true, s));
     set_caps := Some (fun s _ => (true, s));
     get_caps := Some (fun s filter => (filter, s));
     query := Some (fun s _ => (true, s));
     render := Some (fun s _ _ => (GST_FLOW_OK, s)) |}.

(** The same subclass, with an [open] hook that reports failure. *)
Definition failing_open_class : RosBaseSinkClass :=
  {| open := Some (fun s => (false, s));
     close := close plain_class; set_caps := set_caps plain_class;
     get_caps := get_caps plain_class; query := query plain_class;
     render := render plain_class |}.

(** The same subclass, with a [close] hook that reports failure. *)
Definition failing_close_class : RosBaseSinkClass :=
  {| open := open plain_class;
     close := Some (fun s => (false, s)); set_caps := set_caps plain_class;
     get_caps := get_caps plain_class; query := query plain_class;
     render := render plain_class |}.

(** The instance as GObject hands it to [rosbasesink_init]: zero-filled. *)
Definition zeroed_instance : RosBaseSink :=
  {| parent := {| current_state := GST_STATE_NULL; base_time := 0;
                  element_clock := None |};
     node_name := None; node_namespace := None; ros_context := None;
     node := None; logger := None; clock := None; ros_clock_offset := 0 |}.

(** The instance once [rosbasesink_init] has run. *)
Definition new_instance : RosBaseSink :=
  set_node_namespace (Some EmptyString)
    (set_node_name (Some "gst_base_sink_node"%string) zeroed_instance).

Definition new_world : World := {| sink := new_instance; trace := [] |}.

(** An instance that has been opened. *)
Definition open_instance : RosBaseSink :=
  {| parent := {| current_state := GST_STATE_PAUSED; base_time := 5000;
                  element_clock := Some 0%nat |};
     node_name := Some "gst_base_sink_node"%string;
     node_namespace := Some EmptyString;
     ros_context := Some {| Rclcpp.is_valid := true |};
     node := Some {| Rclcpp.get_name := "gst_base_sink_node";
                     Rclcpp.get_namespace := EmptyString |};
     logger := Some {| Rclcpp.logger_name := "gst_base_sink_node" |};
     clock := Some {| Rclcpp.get_clock_type := Rclcpp.RCL_ROS_TIME |};
     ros_clock_offset := 1000000 |}.

Definition open_world : World := {| sink := open_instance; trace := [] |}.

(** A runtime in which the context cannot be initialised, and one in which
    no node can be built. *)
Definition no_context_runtime : Runtime :=
  {| context_init_ok := fun _ => false;
     node_create_ok := node_create_ok quiet_runtime;
     node_get_logger := node_get_logger quiet_runtime;
     node_get_clock := node_get_clock quiet_runtime;
     sample_clock_offset := sample_clock_offset quiet_runtime;
     parent_change_state := parent_change_state quiet_runtime |}.

Definition no_node_runtime : Runtime :=
  {| context_init_ok := context_init_ok quiet_runtime;
     node_create_ok := fun _ _ _ => false;
     node_get_logger := node_get_logger quiet_runtime;
     node_get_clock := node_get_clock quiet_runtime;
     sample_clock_offset := sample_clock_offset quiet_runtime;
     parent_change_state := parent_change_state quiet_runtime |}.

(** An opened instance at rest in READY. *)
Definition ready_instance : RosBaseSink :=
  set_parent {| current_state := GST_STATE_READY; base_time := 0;
                element_clock := None |} open_instance.

Definition ready_world : World := {| sink := ready_instance; trace := [] |}.

(** A runtime whose parent class fails every state change. *)
Definition failing_parent_runtime : Runtime :=
  {| context_init_ok := context_init_ok quiet_runtime;
     node_create_ok := node_create_ok quiet_runtime;
     node_get_logger := node_get_logger quiet_runtime;
     node_get_clock := node_get_clock quiet_runtime;
     sample_clock_offset := sample_clock_offset quiet_runtime;
     parent_change_state := fun _ _ _ => GST_STATE_CHANGE_FAILURE |}.

(** The six transitions of a whole session. *)
Definition whole_session : list GstStateChange :=
  [GST_STATE_CHANGE_NULL_TO_READY; GST_STATE_CHANGE_READY_TO_PAUSED;
   GST_STATE_CHANGE_PAUSED_TO_PLAYING; GST_STATE_CHANGE_PLAYING_TO_PAUSED;
   GST_STATE_CHANGE_PAUSED_TO_READY; GST_STATE_CHANGE_READY_TO_NULL].

(** A buffer stamped at 2 microseconds, and one that carries no timestamp. *)
Definition timed_buffer : GstBuffer := {| pts := 2000; payload := [1; 2; 3] |}.

Definition untimed_buffer : GstBuffer :=
  {| pts := GST_CLOCK_TIME_NONE; payload := [1; 2; 3] |}.

(** * Properties *)

(** ** Running the monad *)

Lemma bind_Ret {A B} (m : M A) (k : A -> M B) w a w' :
  m w = Ret a w' -> bind m k w = k a w'.
Proof. intros H. unfold bind. now rewrite H. Qed.

Lemma app_two {A} (l : list A) (a b : A) : (l ++ [a]) ++ [b] = l ++ [a; b].
Proof. now rewrite <- app_assoc. Qed.

Ltac run_monad :=
  cbv [bind ret throw get_sink modify_sink emit now call_hook
       GST_DEBUG_OBJECT RCLCPP_ERROR RCLCPP_WARN std_string];
  cbn [sink trace fst snd].

(** ** Properties of the instance setters *)

Lemma init_state : rosbasesink_init {| sink := zeroed_instance; trace := [] |} = Ret tt new_world.
Proof. reflexivity. Qed.

(** ** Setting the identity properties *)

Lemma same_but_property_refl (property_id : N) (s : RosBaseSink) :
  same_but_property property_id s s.
Proof. unfold same_but_property; tauto. Qed.

Lemma set_node_name_frame (v : gchar_p) (s : RosBaseSink) :
  same_but_property PROP_ROS_NAME s (set_node_name v s).
Proof. unfold same_but_property; cbn; repeat split; auto; discriminate. Qed.

Lemma set_node_namespace_frame (v : gchar_p) (s : RosBaseSink) :
  same_but_property PROP_ROS_NAMESPACE s (set_node_namespace v s).
Proof. unfold same_but_property; cbn; repeat split; auto; discriminate. Qed.

(** C7.  Setting [ros-name] or [ros-namespace] while the node exists is
    rejected: an error is logged and the instance is left exactly as it was.
    While the node does not exist the stored value becomes the supplied one.
    In both cases (and for any other property id) every other field of the
    instance keeps its value. *)
Theorem set_property_guarded_by_node :
  forall (w : World) (property_id : N) (value : gchar_p),
  exists w',
    rosbasesink_set_property property_id value w = Ret tt w' /\
    same_but_property property_id (sink w) (sink w') /\
    (if is_identity_property property_id
     then if has_node (sink w)
          then sink w' = sink w /\
               trace w' = trace w ++
                 [GstDebug "set_property";
                  RclcppLog Rclcpp.SEV_ERROR (logger (sink w))
                            (rejection_message property_id)]
          else identity_property property_id (sink w') = value /\
               trace w' = trace w ++ [GstDebug "set_property"]
     else sink w' = sink w).
Proof.
  intros w property_id value.
  unfold rosbasesink_set_property, is_identity_property, identity_property,
    rejection_message, has_node.
  destruct (N.eqb_spec property_id PROP_ROS_NAME) as [-> | Hname].
  - run_monad. destruct (node (sink w)) eqn:Hnode; eexists; split;
      try reflexivity; cbn [sink trace]; rewrite ?Hnode, ?app_two.
    + split; [apply same_but_property_refl | now split].
    + split; [apply set_node_name_frame | now split].
  - destruct (N.eqb_spec property_id PROP_ROS_NAMESPACE) as [-> | Hns].
    + run_monad. destruct (node (sink w)) eqn:Hnode; eexists; split;
        try reflexivity; cbn [sink trace orb]; rewrite ?Hnode, ?app_two.
      * split; [apply same_but_property_refl | now split].
      * split; [apply set_node_namespace_frame | now split].
    + run_monad. eexists; split; [reflexivity |]. cbn [sink trace orb].
      split; [apply same_but_property_refl | reflexivity].
Qed.

Example set_property_when_closed :
  rosbasesink_set_property PROP_ROS_NAME (Some "mic"%string) new_world
  = Ret tt {| sink := set_node_name (Some "mic"%string) new_instance;
              trace := [GstDebug "set_property"] |}.
Proof. reflexivity. Qed.

Example set_property_when_open :
  rosbasesink_set_property PROP_ROS_NAMESPACE (Some "robot"%string) open_world
  = Ret tt {| sink := open_instance;
              trace := [GstDebug "set_property";
                        RclcppLog Rclcpp.SEV_ERROR (logger open_instance)
                          "can't change node namespace once openned"] |}.
Proof. reflexivity. Qed.

(** ** Caps *)

(** C10.  Without a [set_caps] hook in the class, [rosbasesink_setcaps]
    answers FALSE for every caps and every instance, and changes nothing. *)
Theorem setcaps_without_hook_rejects :
  forall (sink_class : RosBaseSinkClass) (caps : GstCaps) (w : World),
    set_caps sink_class = None ->
    rosbasesink_setcaps sink_class caps w = Ret false w.
Proof.
  intros sink_class caps w Hnone. unfold rosbasesink_setcaps.
  now rewrite Hnone.
Qed.

Lemma setcaps_without_hook_rejects_witness :
  set_caps bare_class = None /\
  rosbasesink_setcaps bare_class "audio/x-raw, format = S16LE"%string new_world
  = Ret false new_world.
Proof.
  split; [reflexivity |].
  apply (setcaps_without_hook_rejects bare_class); reflexivity.
Defined.

(** With a hook, the answer is the hook's. *)
Lemma setcaps_with_hook :
  forall (sink_class : RosBaseSinkClass) h (caps : GstCaps) (w : World),
    set_caps sink_class = Some h ->
    rosbasesink_setcaps sink_class caps w
    = Ret (fst (h (sink w) caps))
          {| sink := snd (h (sink w) caps); trace := trace w ++ [HookCalled (HSetCaps caps)] |}.
Proof.
  intros sink_class h caps w Hsome. unfold rosbasesink_setcaps.
  now rewrite Hsome.
Qed.

(** C9.  [rosbasesink_getcaps] answers its own [filter] argument, whatever
    the instance and whatever the hook: two calls with the same filter return
    the same value, from any two states of the sink.  The function itself
    writes no field: without a hook the world is untouched, and with a hook
    that leaves the instance alone the instance is the same after the call. *)
Theorem getcaps_deterministic_and_read_only :
  forall (sink_class : RosBaseSinkClass) (filter : option GstCaps) (w1 w2 : World),
    returned (rosbasesink_getcaps sink_class filter w1) = Some filter /\
    returned (rosbasesink_getcaps sink_class filter w2) = Some filter /\
    (get_caps sink_class = None ->
     rosbasesink_getcaps sink_class filter w1 = Ret filter w1) /\
    (get_caps_keeps_instance sink_class ->
     final_sink (rosbasesink_getcaps sink_class filter w1) = Some (sink w1)).
Proof.
  intros sink_class filter w1 w2. unfold rosbasesink_getcaps, get_caps_keeps_instance.
  destruct (get_caps sink_class) as [h |]; run_monad; cbn [returned final_sink sink].
  - repeat split; try reflexivity; [discriminate |].
    intros Hkeep. now rewrite (Hkeep filter (sink w1)).
  - repeat split; reflexivity.
Qed.

Lemma getcaps_deterministic_and_read_only_witness :
  get_caps bare_class = None /\
  rosbasesink_getcaps bare_class (Some "audio/x-raw"%string) open_world
  = Ret (Some "audio/x-raw"%string) open_world /\
  get_caps_keeps_instance plain_class /\
  final_sink (rosbasesink_getcaps plain_class (Some "audio/x-raw"%string) open_world)
  = Some (sink open_world).
Proof.
  assert (Hkeep : get_caps_keeps_instance plain_class)
    by (intros filter s; reflexivity).
  split; [reflexivity | split; [| split; [exact Hkeep |]]].
  - exact (proj1 (proj2 (proj2
      (getcaps_deterministic_and_read_only bare_class (Some "audio/x-raw"%string)
         open_world new_world))) eq_refl).
  - exact (proj2 (proj2 (proj2
      (getcaps_deterministic_and_read_only plain_class (Some "audio/x-raw"%string)
         open_world new_world))) Hkeep).
Defined.

(** ** Rendering *)

Lemma to_guint64_to_gint64 (z : Z) : to_guint64 (to_gint64 z) = to_guint64 z.
Proof.
  unfold to_guint64, to_gint64.
  rewrite Zminus_mod_idemp_l. f_equal. lia.
Qed.

Lemma to_gint64_to_guint64 (z : Z) : to_gint64 (to_guint64 z) = to_gint64 z.
Proof.
  unfold to_guint64, to_gint64.
  now rewrite Zplus_mod_idemp_l.
Qed.

Lemma guint64_add_spec (a b : Z) : guint64_add a b = to_guint64 (a + b).
Proof.
  unfold guint64_add, to_guint64. now rewrite <- Zplus_mod.
Qed.

Lemma to_gint64_small (z : Z) : is_gint64 z -> to_gint64 z = z.
Proof.
  unfold is_gint64, to_gint64. intros Hz.
  rewrite Z.mod_small; lia.
Qed.

Lemma to_guint64_range (z : Z) : is_guint64 (to_guint64 z).
Proof.
  unfold is_guint64, to_guint64. apply Z.mod_pos_bound. lia.
Qed.

Lemma to_gint64_range (z : Z) : is_gint64 (to_gint64 z).
Proof.
  unfold is_gint64, to_gint64.
  pose proof (Z.mod_pos_bound (z + 2 ^ 63) (2 ^ 64)). lia.
Qed.

Lemma to_gint64_congr (x y : Z) :
  to_guint64 x = to_guint64 y -> to_gint64 x = to_gint64 y.
Proof.
  intros H. now rewrite <- (to_gint64_to_guint64 x), H, to_gint64_to_guint64.
Qed.

Lemma to_guint64_add_l (a b : Z) : to_guint64 (to_guint64 a + b) = to_guint64 (a + b).
Proof. unfold to_guint64. now rewrite Zplus_mod_idemp_l. Qed.

(** The nanosecond count is the sum of the three terms, read as [int64_t]. *)
Lemma msg_time_nanoseconds_spec (s : RosBaseSink) (buf : GstBuffer) :
  msg_time_nanoseconds s buf
  = to_gint64 (pts buf + base_time (parent s) + ros_clock_offset s).
Proof.
  unfold msg_time_nanoseconds, gst_element_get_base_time.
  rewrite !guint64_add_spec, to_gint64_to_guint64.
  apply to_gint64_congr.
  rewrite to_guint64_add_l.
  replace (pts buf + to_gint64 (base_time (parent s)) + ros_clock_offset s)
    with (to_gint64 (base_time (parent s)) + (pts buf + ros_clock_offset s)) by lia.
  rewrite <- to_guint64_add_l, to_guint64_to_gint64, to_guint64_add_l.
  f_equal. lia.
Qed.

(** C1 (as the code has it).  With a render hook in the class and the clock
    of the connection present, [rosbasesink_render] hands the buffer to the
    hook together with a time whose nanosecond count is
    [PTS + base_time + ros_clock_offset] read as a signed 64-bit integer, on
    the clock type of the sink's clock.  When the sum lies in the signed
    64-bit range the count is exactly that sum. *)
Theorem render_timestamp :
  forall (sink_class : RosBaseSinkClass) h (buf : GstBuffer) (w : World) c,
    render sink_class = Some h ->
    clock (sink w) = Some c ->
    let T := pts buf in
    let B := base_time (parent (sink w)) in
    let O := ros_clock_offset (sink w) in
    exists msg_time,
      rosbasesink_render sink_class buf w
      = Ret (fst (h (sink w) buf msg_time))
            {| sink := snd (h (sink w) buf msg_time);
               trace := trace w ++ [GstDebug "render";
                                    HookCalled (HRender buf msg_time)] |} /\
      Rclcpp.time_clock_type msg_time = Rclcpp.get_clock_type c /\
      Rclcpp.nanoseconds msg_time = to_gint64 (T + B + O) /\
      (is_gint64 (T + B + O) -> Rclcpp.nanoseconds msg_time = T + B + O).
Proof.
  intros sink_class h buf w c Hhook Hclock T B O.
  exists {| Rclcpp.nanoseconds := msg_time_nanoseconds (sink w) buf;
            Rclcpp.time_clock_type := Rclcpp.get_clock_type c |}.
  split.
  - unfold rosbasesink_render. run_monad. rewrite Hclock, Hhook.
    run_monad. now rewrite app_two.
  - cbn [Rclcpp.time_clock_type Rclcpp.nanoseconds].
    rewrite msg_time_nanoseconds_spec. fold T B O.
    repeat split. intros Hrange. now apply to_gint64_small.
Qed.

Lemma render_timestamp_witness :
  render plain_class = Some (fun s _ _ => (GST_FLOW_OK, s)) /\
  clock (sink open_world) = Some {| Rclcpp.get_clock_type := Rclcpp.RCL_ROS_TIME |} /\
  is_gint64 (2000 + 5000 + 1000000) /\
  exists msg_time,
    rosbasesink_render plain_class timed_buffer open_world
    = Ret GST_FLOW_OK
          {| sink := open_instance;
             trace := [GstDebug "render"; HookCalled (HRender timed_buffer msg_time)] |} /\
    Rclcpp.time_clock_type msg_time = Rclcpp.RCL_ROS_TIME /\
    Rclcpp.nanoseconds msg_time = 1007000.
Proof.
  assert (Hrange : is_gint64 (2000 + 5000 + 1000000)) by (unfold is_gint64; lia).
  split; [reflexivity | split; [reflexivity | split; [exact Hrange |]]].
  destruct (render_timestamp plain_class (fun s _ _ => (GST_FLOW_OK, s))
              timed_buffer open_world
              {| Rclcpp.get_clock_type := Rclcpp.RCL_ROS_TIME |} eq_refl eq_refl)
    as (msg_time & Hcall & Htype & _ & Hexact).
  exists msg_time. split; [exact Hcall | split; [exact Htype |]].
  exact (Hexact Hrange).
Defined.

(** A buffer without a timestamp carries [GST_CLOCK_TIME_NONE], the largest
    [guint64]: the sum leaves the 64-bit range and the hook is handed the
    wrapped count, not the sum. *)
Lemma render_timestamp_wraps :
  rosbasesink_render plain_class untimed_buffer open_world
  = Ret GST_FLOW_OK
        {| sink := open_instance;
           trace := [GstDebug "render";
                     HookCalled (HRender untimed_buffer
                       {| Rclcpp.nanoseconds := 1004999;
                          Rclcpp.time_clock_type := Rclcpp.RCL_ROS_TIME |})] |} /\
  pts untimed_buffer + base_time (parent open_instance)
    + ros_clock_offset open_instance = 18446744073710556615 /\
  1004999 <> pts untimed_buffer + base_time (parent open_instance)
             + ros_clock_offset open_instance.
Proof.
  split; [reflexivity | split; [reflexivity | discriminate]].
Qed.

(** With no render hook in the class and the clock of the connection
    present, [rosbasesink_render] drops the buffer: no hook is called, the
    instance is unchanged and [GST_FLOW_OK] is returned.  The warning is
    logged when the node exists. *)
Theorem render_without_hook_drops :
  forall (sink_class : RosBaseSinkClass) (buf : GstBuffer) (w : World) c,
    render sink_class = None ->
    clock (sink w) = Some c ->
    rosbasesink_render sink_class buf w
    = Ret GST_FLOW_OK
          {| sink := sink w;
             trace := trace w ++
               GstDebug "render" ::
               (if has_node (sink w)
                then [RclcppLog Rclcpp.SEV_WARN (logger (sink w))
                        "rosbasesink render function not set, dropping buffer"]
                else []) |}.
Proof.
  intros sink_class buf w c Hhook Hclock.
  unfold rosbasesink_render, has_node. run_monad. rewrite Hclock, Hhook.
  destruct (node (sink w)); run_monad; now rewrite ?app_two.
Qed.

Lemma render_without_hook_drops_witness :
  render bare_class = None /\
  clock (sink open_world) = Some {| Rclcpp.get_clock_type := Rclcpp.RCL_ROS_TIME |} /\
  rosbasesink_render bare_class timed_buffer open_world
  = Ret GST_FLOW_OK
        {| sink := open_instance;
           trace := [GstDebug "render";
                     RclcppLog Rclcpp.SEV_WARN (logger open_instance)
                       "rosbasesink render function not set, dropping buffer"] |}.
Proof.
  split; [reflexivity | split; [reflexivity |]].
  apply (render_without_hook_drops bare_class timed_buffer open_world
           {| Rclcpp.get_clock_type := Rclcpp.RCL_ROS_TIME |});
    reflexivity.
Defined.

(** Before the sink was ever opened the node and the clock are both null:
    the render path dereferences the clock and never reaches the warning or
    the [return GST_FLOW_OK]. *)
Lemma render_before_open_faults :
  has_node new_instance = false /\
  render bare_class = None /\
  rosbasesink_render bare_class timed_buffer new_world
  = Stop (NullDereference "sink->clock")
         {| sink := new_instance; trace := [GstDebug "render"] |} /\
  returned (rosbasesink_render bare_class timed_buffer new_world) <> Some GST_FLOW_OK.
Proof.
  repeat split; try reflexivity. discriminate.
Qed.

(** With the node absent and a clock still at hand, the buffer is dropped
    without a word. *)
Example render_without_node_is_silent :
  rosbasesink_render bare_class timed_buffer
    {| sink := set_node None open_instance; trace := [] |}
  = Ret GST_FLOW_OK
        {| sink := set_node None open_instance; trace := [GstDebug "render"] |}.
Proof. reflexivity. Qed.

(** C5 (where the code departs from it).  A buffer reaches the render path
    of a sink whose class has no render hook and which has no connection:
    never opened, or opened and closed again, or closed while the parent
    class failed READY to NULL so that the element is still in READY.  The
    test on the node that guards the warning shows that a sink without
    connection is expected here and is meant to fall through to
    [GST_FLOW_OK]; but the time of the message is built first, from the clock
    of the connection, and the dereference of that null clock ends the call:
    no warning is logged and nothing is returned. *)
Theorem render_without_connection_faults :
  render bare_class = None /\
  (has_node new_instance = false /\
   rosbasesink_render bare_class timed_buffer new_world
   = Stop (NullDereference "sink->clock")
          {| sink := new_instance; trace := [GstDebug "render"] |}) /\
  (exists rs w1,
     run quiet_runtime bare_class
       [GST_STATE_CHANGE_NULL_TO_READY; GST_STATE_CHANGE_READY_TO_NULL] new_world
     = Ret rs w1 /\
     forallb (fun r => negb (failed r)) rs = true /\
     current_state (parent (sink w1)) = GST_STATE_NULL /\
     has_node (sink w1) = false /\
     rosbasesink_render bare_class timed_buffer w1
     = Stop (NullDereference "sink->clock")
            {| sink := sink w1; trace := trace w1 ++ [GstDebug "render"] |}) /\
  (exists rs w1,
     run failing_parent_runtime bare_class [GST_STATE_CHANGE_READY_TO_NULL] ready_world
     = Ret rs w1 /\
     current_state (parent (sink w1)) = GST_STATE_READY /\
     has_node (sink w1) = false /\
     rosbasesink_render bare_class timed_buffer w1
     = Stop (NullDereference "sink->clock")
            {| sink := sink w1; trace := trace w1 ++ [GstDebug "render"] |}).
Proof.
  split; [reflexivity | split; [split; reflexivity | split]].
  - eexists. eexists. split; [vm_compute; reflexivity |].
    repeat split.
  - eexists. eexists. split; [vm_compute; reflexivity |].
    repeat split.
Qed.

(** ** State changes *)

Lemma pick_app {A B} (f : A -> option B) (l1 l2 : list A) :
  pick f (l1 ++ l2) = pick f l1 ++ pick f l2.
Proof.
  induction l1 as [| a l1 IH]; [reflexivity |].
  cbn [app pick]. destruct (f a); cbn [app]; now rewrite IH.
Qed.

Lemma samples_app (l1 l2 : list Event) : samples (l1 ++ l2) = samples l1 ++ samples l2.
Proof. apply pick_app. Qed.

(** *** One step of the code at a time *)

Section Steps.

Context {A B : Type} (k : A -> M B) (w : World).

Lemma step_ret (a : A) : bind (ret a) k w = k a w.
Proof. reflexivity. Qed.

Lemma step_throw (f : Fault) : bind (throw f) k w = Stop f w.
Proof. reflexivity. Qed.

Lemma step_call_hook (ev : Hook) (h : RosBaseSink -> A * RosBaseSink) :
  bind (call_hook ev h) k w
  = k (fst (h (sink w)))
      {| sink := snd (h (sink w)); trace := trace w ++ [HookCalled ev] |}.
Proof. reflexivity. Qed.

Lemma step_assoc {C} (m : M C) (k' : C -> M A) :
  bind (bind m k') k w = bind m (fun c => bind (k' c) k) w.
Proof. unfold bind. now destruct (m w). Qed.

End Steps.

Section UnitSteps.

Context {B : Type} (w : World).

Lemma step_emit (k : unit -> M B) (e : Event) :
  bind (emit e) k w = k tt {| sink := sink w; trace := trace w ++ [e] |}.
Proof. reflexivity. Qed.

Lemma step_modify (k : unit -> M B) (f : RosBaseSink -> RosBaseSink) :
  bind (modify_sink f) k w = k tt {| sink := f (sink w); trace := trace w |}.
Proof. reflexivity. Qed.

Lemma step_get (k : RosBaseSink -> M B) : bind get_sink k w = k (sink w) w.
Proof. reflexivity. Qed.

Lemma step_now (k : nat -> M B) : bind now k w = k (List.length (trace w)) w.
Proof. reflexivity. Qed.

End UnitSteps.

Lemma length_snoc {X} (l : list X) (x : X) : List.length (l ++ [x]) = S (List.length l).
Proof. rewrite length_app. cbn. apply Nat.add_1_r. Qed.

Ltac step :=
  first [ rewrite step_assoc | rewrite step_emit | rewrite step_modify
        | rewrite step_get | rewrite step_now | rewrite step_ret
        | rewrite step_throw | rewrite step_call_hook ];
  cbv beta; cbn [sink trace fst snd]; rewrite ?length_snoc.

(** Closing a goal whose two sides differ by the nesting of the trace. *)
Ltac same_world :=
  cbn [sink trace fst snd]; rewrite <- ?app_assoc; reflexivity.

(** Entering PLAYING: the offset is sampled once, stored, and the parent
    class is called. *)
Lemma change_state_paused_to_playing (rt : Runtime) (k : RosBaseSinkClass) (w : World) :
  let v := sample_clock_offset rt (List.length (trace w))
             (element_clock (parent (sink w))) (clock (sink w)) in
  rosbasesink_change_state rt k GST_STATE_CHANGE_PAUSED_TO_PLAYING w
  = Ret (parent_change_state rt (S (List.length (trace w)))
           (parent (sink w)) GST_STATE_CHANGE_PAUSED_TO_PLAYING)
        {| sink := set_ros_clock_offset v (sink w);
           trace := trace w ++ [ClockSampled v;
                                ParentChangeState GST_STATE_CHANGE_PAUSED_TO_PLAYING] |}.
Proof.
  unfold rosbasesink_change_state, change_state_upwards, chain_up,
    change_state_downwards.
  repeat step. unfold ret. same_world.
Qed.

Lemma change_state_passes_through (rt : Runtime) (k : RosBaseSinkClass)
    (tr : GstStateChange) (w : World) :
  passes_through tr = true ->
  rosbasesink_change_state rt k tr w
  = Ret (parent_change_state rt (List.length (trace w)) (parent (sink w)) tr)
        {| sink := sink w; trace := trace w ++ [ParentChangeState tr] |}.
Proof.
  destruct tr; try discriminate; intros _; reflexivity.
Qed.

(** *** Opening and closing *)

Lemma close_returns (k : RosBaseSinkClass) (w : World) c :
  let r := run_hook (close k) (set_clock None (sink w)) in
  ros_context (snd r) = Some c ->
  rosbasesink_close k w
  = Ret (fst r)
        {| sink := set_ros_context (Some (Rclcpp.shutdown c)) (set_node None (snd r));
           trace := trace w ++ [GstDebug "close"; ClockDropped]
                      ++ hook_event HClose (close k)
                      ++ [NodeDropped; ShutdownContext "gst closing rosbasesink"] |}.
Proof.
  unfold run_hook, hook_event, rosbasesink_close, GST_DEBUG_OBJECT.
  do 3 step.
  destruct (close k) as [h |]; cbn [fst snd]; intros Hctx; repeat step;
    cbn [ros_context set_node]; rewrite Hctx; repeat step; unfold ret; same_world.
Qed.

Lemma close_faults (k : RosBaseSinkClass) (w : World) :
  ros_context (snd (run_hook (close k) (set_clock None (sink w)))) = None ->
  exists w', rosbasesink_close k w = Stop (NullDereference "sink->ros_context") w'.
Proof.
  unfold run_hook, rosbasesink_close, GST_DEBUG_OBJECT.
  do 3 step.
  destruct (close k) as [h |]; cbn [fst snd]; intros Hctx; repeat step;
    cbn [ros_context set_node]; rewrite Hctx; eexists; reflexivity.
Qed.

Lemma set_ros_context_twice (a b : option Rclcpp.Context) (s : RosBaseSink) :
  set_ros_context a (set_ros_context b s) = set_ros_context a s.
Proof. reflexivity. Qed.

Lemma open_returns (rt : Runtime) (k : RosBaseSinkClass) (w : World) name ns n :
  context_init_ok rt (S (List.length (trace w))) = true ->
  node_name (sink w) = Some name ->
  node_namespace (sink w) = Some ns ->
  node_create_ok rt (S (S (List.length (trace w)))) name ns = true ->
  let r := run_hook (open k)
             (set_node (Some {| Rclcpp.get_name := name; Rclcpp.get_namespace := ns |})
                (set_ros_context (Some {| Rclcpp.is_valid := true |}) (sink w))) in
  node (snd r) = Some n ->
  rosbasesink_open rt k w
  = Ret (fst r)
        {| sink := set_clock (Some (node_get_clock rt n))
                     (set_logger (Some (node_get_logger rt n)) (snd r));
           trace := trace w ++ [GstDebug "open"; InitContext; NodeCreated name ns]
                      ++ hook_event HOpen (open k) |}.
Proof.
  intros Hctx Hname Hns Hnode.
  unfold run_hook, hook_event, rosbasesink_open, GST_DEBUG_OBJECT, std_string.
  do 3 step. rewrite Hctx. do 4 step. rewrite set_ros_context_twice.
  cbn [node_name node_namespace set_ros_context]. rewrite Hname. step.
  rewrite Hns. do 2 step. rewrite Hnode. do 3 step.
  destruct (open k) as [h |]; cbn [fst snd]; intros Hn; repeat step;
    rewrite Hn; repeat step; unfold ret; same_world.
Qed.

Lemma change_state_null_to_ready (rt : Runtime) (k : RosBaseSinkClass) (w : World) :
  rosbasesink_change_state rt k GST_STATE_CHANGE_NULL_TO_READY w
  = match rosbasesink_open rt k w with
    | Ret true w1 =>
        Ret (parent_change_state rt (List.length (trace w1)) (parent (sink w1))
               GST_STATE_CHANGE_NULL_TO_READY)
            {| sink := sink w1;
               trace := trace w1 ++ [ParentChangeState GST_STATE_CHANGE_NULL_TO_READY] |}
    | Ret false w1 =>
        Ret GST_STATE_CHANGE_FAILURE
            {| sink := sink w1; trace := trace w1 ++ [GstDebug "open failed"] |}
    | Stop f w1 => Stop f w1
    end.
Proof.
  unfold rosbasesink_change_state, change_state_upwards.
  rewrite step_assoc. unfold bind at 1.
  destruct (rosbasesink_open rt k w) as [[|] w1 | f w1]; reflexivity.
Qed.

Lemma change_state_ready_to_null (rt : Runtime) (k : RosBaseSinkClass) (w : World) :
  rosbasesink_change_state rt k GST_STATE_CHANGE_READY_TO_NULL w
  = match rosbasesink_close k
            {| sink := sink w;
               trace := trace w ++ [ParentChangeState GST_STATE_CHANGE_READY_TO_NULL] |}
    with
    | Ret _ w1 =>
        Ret (parent_change_state rt (List.length (trace w)) (parent (sink w))
               GST_STATE_CHANGE_READY_TO_NULL) w1
    | Stop f w1 => Stop f w1
    end.
Proof.
  unfold rosbasesink_change_state, change_state_upwards, change_state_downwards,
    chain_up.
  repeat step. unfold bind at 1.
  destruct (rosbasesink_close k _) as [b w1 | f w1]; reflexivity.
Qed.

(** The ways [rosbasesink_open] does not return. *)
Lemma open_context_init_throws (rt : Runtime) (k : RosBaseSinkClass) (w : World) :
  context_init_ok rt (S (List.length (trace w))) = false ->
  rosbasesink_open rt k w
  = Stop (CxxException "rclcpp::Context::init")
         {| sink := set_ros_context (Some {| Rclcpp.is_valid := false |}) (sink w);
            trace := trace w ++ [GstDebug "open"] |}.
Proof.
  intros Hctx. unfold rosbasesink_open, GST_DEBUG_OBJECT.
  do 3 step. rewrite Hctx. now repeat step.
Qed.

Lemma open_null_string (rt : Runtime) (k : RosBaseSinkClass) (w : World) :
  context_init_ok rt (S (List.length (trace w))) = true ->
  node_name (sink w) = None \/ node_namespace (sink w) = None ->
  exists w', rosbasesink_open rt k w
             = Stop (CxxException "basic_string: construction from null") w'.
Proof.
  intros Hctx Hnull. unfold rosbasesink_open, GST_DEBUG_OBJECT, std_string.
  do 3 step. rewrite Hctx. do 4 step. rewrite set_ros_context_twice.
  cbn [node_name node_namespace set_ros_context].
  destruct (node_name (sink w)) as [name |].
  - destruct Hnull as [Hnull | Hnull]; [discriminate |].
    step. rewrite Hnull. step. eexists; reflexivity.
  - step. eexists; reflexivity.
Qed.

Lemma open_node_throws (rt : Runtime) (k : RosBaseSinkClass) (w : World) name ns :
  context_init_ok rt (S (List.length (trace w))) = true ->
  node_name (sink w) = Some name ->
  node_namespace (sink w) = Some ns ->
  node_create_ok rt (S (S (List.length (trace w)))) name ns = false ->
  rosbasesink_open rt k w
  = Stop (CxxException "rclcpp::Node::Node")
         {| sink := set_ros_context (Some {| Rclcpp.is_valid := true |}) (sink w);
            trace := trace w ++ [GstDebug "open"; InitContext] |}.
Proof.
  intros Hctx Hname Hns Hnode.
  unfold rosbasesink_open, GST_DEBUG_OBJECT, std_string.
  do 3 step. rewrite Hctx. do 4 step. rewrite set_ros_context_twice.
  cbn [node_name node_namespace set_ros_context]. rewrite Hname. step.
  rewrite Hns. do 2 step. rewrite Hnode. repeat step. same_world.
Qed.

Lemma open_hook_drops_node (rt : Runtime) (k : RosBaseSinkClass) (w : World) name ns :
  context_init_ok rt (S (List.length (trace w))) = true ->
  node_name (sink w) = Some name ->
  node_namespace (sink w) = Some ns ->
  node_create_ok rt (S (S (List.length (trace w)))) name ns = true ->
  node (snd (run_hook (open k)
               (set_node (Some {| Rclcpp.get_name := name; Rclcpp.get_namespace := ns |})
                  (set_ros_context (Some {| Rclcpp.is_valid := true |}) (sink w)))))
  = None ->
  exists w', rosbasesink_open rt k w = Stop (NullDereference "sink->node") w'.
Proof.
  intros Hctx Hname Hns Hnode.
  unfold run_hook, rosbasesink_open, GST_DEBUG_OBJECT, std_string.
  do 3 step. rewrite Hctx. do 4 step. rewrite set_ros_context_twice.
  cbn [node_name node_namespace set_ros_context]. rewrite Hname. step.
  rewrite Hns. do 2 step. rewrite Hnode. do 3 step.
  destruct (open k) as [h |]; cbn [fst snd]; intros Hn; repeat step;
    rewrite Hn; eexists; reflexivity.
Qed.

(** When [rosbasesink_open] returns, it went all the way. *)
Lemma open_inv (rt : Runtime) (k : RosBaseSinkClass) (w : World) b w1 :
  rosbasesink_open rt k w = Ret b w1 ->
  exists name ns n,
    node_name (sink w) = Some name /\
    node_namespace (sink w) = Some ns /\
    let r := run_hook (open k)
               (set_node (Some {| Rclcpp.get_name := name; Rclcpp.get_namespace := ns |})
                  (set_ros_context (Some {| Rclcpp.is_valid := true |}) (sink w))) in
    node (snd r) = Some n /\
    b = fst r /\
    w1 = {| sink := set_clock (Some (node_get_clock rt n))
                      (set_logger (Some (node_get_logger rt n)) (snd r));
            trace := trace w ++ [GstDebug "open"; InitContext; NodeCreated name ns]
                       ++ hook_event HOpen (open k) |}.
Proof.
  intros Hopen.
  destruct (context_init_ok rt (S (List.length (trace w)))) eqn:Hctx;
    [| rewrite (open_context_init_throws rt k w Hctx) in Hopen; discriminate].
  destruct (node_name (sink w)) as [name |] eqn:Hname;
    [| destruct (open_null_string rt k w Hctx (or_introl Hname)) as [w' Hstop];
       rewrite Hstop in Hopen; discriminate].
  destruct (node_namespace (sink w)) as [ns |] eqn:Hns;
    [| destruct (open_null_string rt k w Hctx (or_intror Hns)) as [w' Hstop];
       rewrite Hstop in Hopen; discriminate].
  destruct (node_create_ok rt (S (S (List.length (trace w)))) name ns) eqn:Hnode;
    [| rewrite (open_node_throws rt k w name ns Hctx Hname Hns Hnode) in Hopen;
       discriminate].
  exists name, ns.
  destruct (node (snd (run_hook (open k)
               (set_node (Some {| Rclcpp.get_name := name; Rclcpp.get_namespace := ns |})
                  (set_ros_context (Some {| Rclcpp.is_valid := true |}) (sink w))))))
    as [n |] eqn:Hn;
    [| destruct (open_hook_drops_node rt k w name ns Hctx Hname Hns Hnode Hn)
         as [w' Hstop]; rewrite Hstop in Hopen; discriminate].
  exists n. rewrite (open_returns rt k w name ns n Hctx Hname Hns Hnode Hn) in Hopen.
  injection Hopen as Hb Hw. cbv zeta. rewrite Hn. now repeat split.
Qed.

Lemma close_inv (k : RosBaseSinkClass) (w : World) b w1 :
  rosbasesink_close k w = Ret b w1 ->
  exists c,
    let r := run_hook (close k) (set_clock None (sink w)) in
    ros_context (snd r) = Some c /\
    b = fst r /\
    w1 = {| sink := set_ros_context (Some (Rclcpp.shutdown c)) (set_node None (snd r));
            trace := trace w ++ [GstDebug "close"; ClockDropped]
                       ++ hook_event HClose (close k)
                       ++ [NodeDropped; ShutdownContext "gst closing rosbasesink"] |}.
Proof.
  intros Hclose.
  destruct (ros_context (snd (run_hook (close k) (set_clock None (sink w)))))
    as [c |] eqn:Hctx;
    [| destruct (close_faults k w Hctx) as [w' Hstop];
       rewrite Hstop in Hclose; discriminate].
  exists c. rewrite (close_returns k w c Hctx) in Hclose.
  injection Hclose as Hb Hw. cbv zeta. now repeat split.
Qed.

Lemma run_hook_keeps (h : option (RosBaseSink -> gboolean * RosBaseSink)) (s : RosBaseSink) :
  match h with Some f => keeps_instance f | None => True end ->
  snd (run_hook h s) = s.
Proof. destruct h as [f |]; cbn; auto. Qed.

Lemma samples_hook_event ev h : samples (hook_event ev h) = [].
Proof. now destruct h. Qed.

(** What the pipeline sees of a state change. *)
Lemma gst_element_change_state_spec (rt : Runtime) (k : RosBaseSinkClass)
    (tr : GstStateChange) (w : World) :
  gst_element_change_state rt k tr w
  = match rosbasesink_change_state rt k tr w with
    | Ret r w1 => Ret r (committed tr r w1)
    | Stop f w1 => Stop f w1
    end.
Proof.
  unfold gst_element_change_state, bind at 1.
  destruct (rosbasesink_change_state rt k tr w) as [r w1 | f w1]; [| reflexivity].
  destruct r; cbn [committed]; try reflexivity; now destruct w1.
Qed.

(** *** Leaving READY for NULL *)

Lemma in_snoc_l {X} (l l' : list X) (x : X) : In x l' -> In x (l ++ l').
Proof. intros H. apply in_or_app. now right. Qed.

(** C6.  On READY to NULL the value returned is the parent class's, whatever
    the close hook answered; and provided the hook left the context pointer
    in place, the node is released and the context is shut down even when the
    hook reports failure. *)
Theorem close_failure_is_swallowed :
  forall (rt : Runtime) (k : RosBaseSinkClass) (w : World) c,
    ros_context (snd (run_hook (close k) (set_clock None (sink w)))) = Some c ->
    exists w',
      rosbasesink_change_state rt k GST_STATE_CHANGE_READY_TO_NULL w
      = Ret (parent_change_state rt (List.length (trace w)) (parent (sink w))
               GST_STATE_CHANGE_READY_TO_NULL) w' /\
      node (sink w') = None /\
      ros_context (sink w') = Some (Rclcpp.shutdown c) /\
      external_connection (sink w') = false /\
      In NodeDropped (trace w') /\
      In (ShutdownContext "gst closing rosbasesink") (trace w') /\
      forall h' c',
        ros_context (snd (h' (set_clock None (sink w)))) = Some c' ->
        returned (rosbasesink_change_state rt (with_close (Some h') k)
                    GST_STATE_CHANGE_READY_TO_NULL w)
        = returned (rosbasesink_change_state rt k GST_STATE_CHANGE_READY_TO_NULL w).
Proof.
  intros rt k w c Hctx.
  rewrite change_state_ready_to_null.
  rewrite (close_returns k
             {| sink := sink w;
                trace := trace w ++ [ParentChangeState GST_STATE_CHANGE_READY_TO_NULL] |}
             c Hctx).
  cbn [sink trace].
  eexists. split; [reflexivity |]. cbn [sink trace].
  repeat split.
  - do 2 apply in_snoc_l. apply in_snoc_l. now left.
  - do 2 apply in_snoc_l. apply in_snoc_l. right. now left.
  - intros h' c' Hctx'.
    rewrite change_state_ready_to_null.
    rewrite (close_returns (with_close (Some h') k)
               {| sink := sink w;
                  trace := trace w ++ [ParentChangeState GST_STATE_CHANGE_READY_TO_NULL] |}
               c' Hctx').
    reflexivity.
Qed.

Lemma close_failure_is_swallowed_witness :
  fst (run_hook (close failing_close_class) (set_clock None (sink open_world))) = false /\
  ros_context (snd (run_hook (close failing_close_class) (set_clock None (sink open_world))))
  = Some {| Rclcpp.is_valid := true |} /\
  exists w',
    rosbasesink_change_state quiet_runtime failing_close_class
      GST_STATE_CHANGE_READY_TO_NULL open_world
    = Ret GST_STATE_CHANGE_SUCCESS w' /\
    node (sink w') = None /\
    ros_context (sink w') = Some {| Rclcpp.is_valid := false |} /\
    external_connection (sink w') = false.
Proof.
  split; [reflexivity | split; [reflexivity |]].
  destruct (close_failure_is_swallowed quiet_runtime failing_close_class open_world
              {| Rclcpp.is_valid := true |} eq_refl)
    as (w' & Hcall & Hnode & Hctx & Hconn & _).
  exists w'. repeat split; assumption.
Defined.

Lemma open_acquires_in_order (rt : Runtime) (k : RosBaseSinkClass) (w : World) h b w1 :
  open k = Some h ->
  rosbasesink_open rt k w = Ret b w1 ->
  exists events, trace w1 = trace w ++ events /\ pick acquired events = acquisition_order.
Proof.
  intros Hhook Hopen.
  destruct (open_inv rt k w b w1 Hopen) as (name & ns & n & _ & _ & _ & _ & ->).
  eexists. split; [reflexivity |]. rewrite Hhook. reflexivity.
Qed.

(** C8.  [rosbasesink_close], once it has let go of its clock handle, calls
    the subclass's close hook on an instance whose node and context are still
    the ones it was opened with, then resets the node pointer, then shuts the
    context down: hook, node, context, the reverse of the order in which
    [rosbasesink_open] took them.  When it returns the node pointer is null
    and the context is no longer valid. *)
Theorem close_releases_in_reverse_order :
  forall (k : RosBaseSinkClass) h (w : World) c,
    close k = Some h ->
    let handed := set_clock None (sink w) in
    ros_context (snd (h handed)) = Some c ->
    exists w' events,
      rosbasesink_close k w = Ret (fst (h handed)) w' /\
      node handed = node (sink w) /\
      ros_context handed = ros_context (sink w) /\
      sink w' = set_ros_context (Some (Rclcpp.shutdown c))
                  (set_node None (snd (h handed))) /\
      node (sink w') = None /\
      ros_context (sink w') = Some {| Rclcpp.is_valid := false |} /\
      has_node (sink w') = false /\
      has_valid_context (sink w') = false /\
      trace w' = trace w ++ events /\
      events = [GstDebug "close"; ClockDropped; HookCalled HClose; NodeDropped;
                ShutdownContext "gst closing rosbasesink"] /\
      pick released events = [Endpoints; TheNode; TheContext] /\
      pick released events = rev acquisition_order.
Proof.
  intros k h w c Hhook handed Hctx.
  assert (Hrun : run_hook (close k) (set_clock None (sink w)) = h handed)
    by (unfold run_hook; now rewrite Hhook).
  assert (Hctx' : ros_context (snd (run_hook (close k) (set_clock None (sink w)))) = Some c)
    by now rewrite Hrun.
  eexists. eexists.
  split; [rewrite (close_returns k w c Hctx'), Hrun, Hhook; reflexivity |].
  cbn [sink trace hook_event app].
  repeat split.
Qed.

Lemma close_releases_in_reverse_order_witness :
  close plain_class = Some (fun s => (true, s)) /\
  ros_context (set_clock None (sink open_world)) = Some {| Rclcpp.is_valid := true |} /\
  has_node (sink open_world) = true /\
  has_valid_context (sink open_world) = true /\
  exists w',
    rosbasesink_close plain_class open_world = Ret true w' /\
    node (sink w') = None /\
    ros_context (sink w') = Some {| Rclcpp.is_valid := false |} /\
    has_node (sink w') = false /\
    has_valid_context (sink w') = false /\
    trace w' = [GstDebug "close"; ClockDropped; HookCalled HClose; NodeDropped;
                ShutdownContext "gst closing rosbasesink"] /\
    pick released (trace w') = rev acquisition_order.
Proof.
  split; [reflexivity | split; [reflexivity | split; [reflexivity |
    split; [reflexivity |]]]].
  destruct (close_releases_in_reverse_order plain_class (fun s => (true, s))
              open_world {| Rclcpp.is_valid := true |} eq_refl eq_refl)
    as (w' & events & Hcall & _ & _ & _ & Hnode & Hctx & Hhas & Hvalid
        & Htrace & Hevents & _ & Hrev).
  exists w'. split; [exact Hcall |].
  split; [exact Hnode | split; [exact Hctx | split; [exact Hhas |
    split; [exact Hvalid |]]]].
  cbn [trace open_world app] in Htrace. rewrite Htrace.
  split; [exact Hevents | exact Hrev].
Defined.

(** *** Sampling the clock offset *)

Lemma committed_trace tr r w : trace (committed tr r w) = trace w.
Proof. now destruct r. Qed.

Lemma committed_frame tr r w :
  clock (sink (committed tr r w)) = clock (sink w) /\
  element_clock (parent (sink (committed tr r w))) = element_clock (parent (sink w)) /\
  ros_clock_offset (sink (committed tr r w)) = ros_clock_offset (sink w) /\
  node (sink (committed tr r w)) = node (sink w) /\
  ros_context (sink (committed tr r w)) = ros_context (sink w).
Proof. destruct r; repeat split. Qed.

Lemma committed_state tr r w :
  current_state (parent (sink (committed tr r w)))
  = if failed r then current_state (parent (sink w)) else transition_next tr.
Proof. now destruct r. Qed.

(** The transitions other than PAUSED to PLAYING leave the stored offset and
    the list of samples alone, as long as the hooks they call do. *)
Lemma offset_untouched_elsewhere (rt : Runtime) (k : RosBaseSinkClass)
    (tr : GstStateChange) (w : World) r w' :
  tr <> GST_STATE_CHANGE_PAUSED_TO_PLAYING ->
  open_keeps_instance k ->
  close_keeps_instance k ->
  rosbasesink_change_state rt k tr w = Ret r w' ->
  ros_clock_offset (sink w') = ros_clock_offset (sink w) /\
  samples (trace w') = samples (trace w).
Proof.
  intros Htr Hopen Hclose Hcall.
  destruct (passes_through tr) eqn:Hpass.
  - rewrite (change_state_passes_through rt k tr w Hpass) in Hcall.
    injection Hcall as _ <-. cbn [sink trace]. rewrite samples_app.
    split; [reflexivity | apply app_nil_r].
  - destruct tr; try discriminate; try congruence.
    + rewrite change_state_null_to_ready in Hcall.
      destruct (rosbasesink_open rt k w) as [b w1 | f w1] eqn:Hop;
        [| discriminate].
      destruct (open_inv rt k w b w1 Hop) as (name & ns & n & _ & _ & _ & _ & Hw1).
      rewrite (run_hook_keeps (open k) _ Hopen) in Hw1.
      assert (Hsame : ros_clock_offset (sink w1) = ros_clock_offset (sink w) /\
                      samples (trace w1) = samples (trace w)).
      { subst w1. cbn [sink trace]. split; [reflexivity |].
        rewrite !samples_app, samples_hook_event. cbn. now rewrite !app_nil_r. }
      destruct Hsame as [Hoff Hsam].
      destruct b; injection Hcall as _ <-; cbn [sink trace];
        (split; [exact Hoff | rewrite samples_app, Hsam; cbn; apply app_nil_r]).
    + rewrite change_state_ready_to_null in Hcall.
      destruct (rosbasesink_close k _) as [b w1 | f w1] eqn:Hcl; [| discriminate].
      destruct (close_inv k _ b w1 Hcl) as (c & _ & _ & Hw1).
      rewrite (run_hook_keeps (close k) _ Hclose) in Hw1.
      injection Hcall as _ <-. subst w1. cbn [sink trace]. split; [reflexivity |].
      rewrite !samples_app, samples_hook_event. cbn. now rewrite !app_nil_r.
Qed.

Lemma enter_playing (rt : Runtime) (k : RosBaseSinkClass) (w : World) :
  let v := sample_clock_offset rt (List.length (trace w))
             (element_clock (parent (sink w))) (clock (sink w)) in
  exists r w',
    gst_element_change_state rt k GST_STATE_CHANGE_PAUSED_TO_PLAYING w = Ret r w' /\
    trace w' = trace w ++ [ClockSampled v;
                           ParentChangeState GST_STATE_CHANGE_PAUSED_TO_PLAYING] /\
    ros_clock_offset (sink w') = v /\
    clock (sink w') = clock (sink w) /\
    element_clock (parent (sink w')) = element_clock (parent (sink w)).
Proof.
  intros v. rewrite gst_element_change_state_spec, change_state_paused_to_playing.
  eexists. eexists. split; [reflexivity |].
  rewrite committed_trace.
  match goal with
  | |- context [committed ?tr ?r ?x] =>
      destruct (committed_frame tr r x) as (-> & -> & -> & _)
  end.
  repeat split.
Qed.

Lemma leave_playing (rt : Runtime) (k : RosBaseSinkClass) (w : World) :
  exists r w',
    gst_element_change_state rt k GST_STATE_CHANGE_PLAYING_TO_PAUSED w = Ret r w' /\
    trace w' = trace w ++ [ParentChangeState GST_STATE_CHANGE_PLAYING_TO_PAUSED] /\
    ros_clock_offset (sink w') = ros_clock_offset (sink w) /\
    clock (sink w') = clock (sink w) /\
    element_clock (parent (sink w')) = element_clock (parent (sink w)).
Proof.
  rewrite gst_element_change_state_spec.
  rewrite (change_state_passes_through rt k GST_STATE_CHANGE_PLAYING_TO_PAUSED w eq_refl).
  eexists. eexists. split; [reflexivity |].
  rewrite committed_trace.
  match goal with
  | |- context [committed ?tr ?r ?x] =>
      destruct (committed_frame tr r x) as (-> & -> & -> & _)
  end.
  repeat split.
Qed.

(** C4.  Every PAUSED to PLAYING transition samples the clock offset once
    and stores that sample.  Over PAUSED, PLAYING, PAUSED, PLAYING two
    samples are taken, the second at a later instant than the first, and the
    offset stored at the end is the second one.  No other transition samples
    the clock or (its hooks leaving the instance alone) changes the stored
    offset. *)
Theorem offset_sampled_on_each_entry_to_playing :
  forall (rt : Runtime) (k : RosBaseSinkClass) (w : World),
    let sample_at t :=
      sample_clock_offset rt t (element_clock (parent (sink w))) (clock (sink w)) in
    (exists r w',
       rosbasesink_change_state rt k GST_STATE_CHANGE_PAUSED_TO_PLAYING w = Ret r w' /\
       ros_clock_offset (sink w') = sample_at (List.length (trace w)) /\
       samples (trace w') = samples (trace w) ++ [sample_at (List.length (trace w))]) /\
    (exists rs w',
       run rt k [GST_STATE_CHANGE_PAUSED_TO_PLAYING;
                 GST_STATE_CHANGE_PLAYING_TO_PAUSED;
                 GST_STATE_CHANGE_PAUSED_TO_PLAYING] w = Ret rs w' /\
       samples (trace w')
       = samples (trace w) ++ [sample_at (List.length (trace w));
                               sample_at (List.length (trace w) + 3)%nat] /\
       ros_clock_offset (sink w') = sample_at (List.length (trace w) + 3)%nat) /\
    (forall tr r w',
       tr <> GST_STATE_CHANGE_PAUSED_TO_PLAYING ->
       open_keeps_instance k ->
       close_keeps_instance k ->
       rosbasesink_change_state rt k tr w = Ret r w' ->
       ros_clock_offset (sink w') = ros_clock_offset (sink w) /\
       samples (trace w') = samples (trace w)).
Proof.
  intros rt k w sample_at. split; [| split].
  - rewrite change_state_paused_to_playing.
    eexists. eexists. split; [reflexivity |]. cbn [sink trace].
    split; [reflexivity |]. now rewrite samples_app.
  - destruct (enter_playing rt k w) as (r1 & w1 & H1 & Ht1 & _ & Hc1 & He1).
    destruct (leave_playing rt k w1) as (r2 & w2 & H2 & Ht2 & _ & Hc2 & He2).
    destruct (enter_playing rt k w2) as (r3 & w3 & H3 & Ht3 & Ho3 & _ & _).
    exists [r1; r2; r3], w3. cbn [run].
    rewrite (bind_Ret _ _ _ _ _ H1). cbv beta. rewrite !step_assoc.
    rewrite (bind_Ret _ _ _ _ _ H2). cbv beta. rewrite !step_assoc.
    rewrite (bind_Ret _ _ _ _ _ H3). cbv beta.
    split; [reflexivity |].
    assert (Hlen : List.length (trace w2) = (List.length (trace w) + 3)%nat).
    { rewrite Ht2, Ht1, !length_app. cbn [List.length]. lia. }
    rewrite Hlen, Hc2, Hc1, He2, He1 in Ht3, Ho3.
    fold (sample_at (List.length (trace w) + 3)%nat) in Ht3, Ho3.
    split; [| exact Ho3].
    rewrite Ht3, Ht2, Ht1, !samples_app. cbn. rewrite <- !app_assoc. reflexivity.
  - intros tr r w'. apply offset_untouched_elsewhere.
Qed.

Lemma offset_sampled_on_each_entry_to_playing_witness :
  (exists rs w',
     run quiet_runtime plain_class
       [GST_STATE_CHANGE_PAUSED_TO_PLAYING; GST_STATE_CHANGE_PLAYING_TO_PAUSED;
        GST_STATE_CHANGE_PAUSED_TO_PLAYING] open_world = Ret rs w' /\
     samples (trace w') = [1000; 1003] /\
     ros_clock_offset (sink w') = 1003) /\
  GST_STATE_CHANGE_READY_TO_NULL <> GST_STATE_CHANGE_PAUSED_TO_PLAYING /\
  open_keeps_instance plain_class /\
  close_keeps_instance plain_class /\
  exists r w',
    rosbasesink_change_state quiet_runtime plain_class
      GST_STATE_CHANGE_READY_TO_NULL open_world = Ret r w' /\
    ros_clock_offset (sink w') = 1000000 /\
    samples (trace w') = [].
Proof.
  destruct (offset_sampled_on_each_entry_to_playing quiet_runtime plain_class open_world)
    as (_ & Hcycle & Hothers).
  assert (Hneq : GST_STATE_CHANGE_READY_TO_NULL <> GST_STATE_CHANGE_PAUSED_TO_PLAYING)
    by discriminate.
  assert (Hopen : open_keeps_instance plain_class) by (intros s; reflexivity).
  assert (Hclose : close_keeps_instance plain_class) by (intros s; reflexivity).
  split; [exact Hcycle |].
  split; [exact Hneq | split; [exact Hopen | split; [exact Hclose |]]].
  eexists. eexists. split; [reflexivity |].
  exact (Hothers GST_STATE_CHANGE_READY_TO_NULL _ _ Hneq Hopen Hclose eq_refl).
Defined.

(** *** Entering READY from NULL *)

Lemma bind_inv {A B} (m : M A) (k : A -> M B) w b w' :
  bind m k w = Ret b w' -> exists a w1, m w = Ret a w1 /\ k a w1 = Ret b w'.
Proof.
  unfold bind. destruct (m w) as [a w1 | f w1]; [| discriminate].
  intros H. now exists a, w1.
Qed.

(** An open hook that reports failure makes the state change fail, and the
    node, context, logger and clock created on the way stay in place. *)
Lemma failed_open_hook (rt : Runtime) (k : RosBaseSinkClass) (w : World) h name ns :
  open k = Some h ->
  (forall s, h s = (false, s)) ->
  context_init_ok rt (S (List.length (trace w))) = true ->
  node_name (sink w) = Some name ->
  node_namespace (sink w) = Some ns ->
  node_create_ok rt (S (S (List.length (trace w)))) name ns = true ->
  exists w',
    gst_element_change_state rt k GST_STATE_CHANGE_NULL_TO_READY w
    = Ret GST_STATE_CHANGE_FAILURE w' /\
    current_state (parent (sink w')) = current_state (parent (sink w)) /\
    node (sink w')
    = Some {| Rclcpp.get_name := name; Rclcpp.get_namespace := ns |} /\
    ros_context (sink w') = Some {| Rclcpp.is_valid := true |} /\
    has_clock (sink w') = true /\
    external_connection (sink w') = true.
Proof.
  intros Hhook Hfail Hctx Hname Hns Hnode.
  rewrite gst_element_change_state_spec, change_state_null_to_ready.
  rewrite (open_returns rt k w name ns
             {| Rclcpp.get_name := name; Rclcpp.get_namespace := ns |}
             Hctx Hname Hns Hnode)
    by (unfold run_hook; rewrite Hhook, Hfail; reflexivity).
  unfold run_hook. rewrite Hhook, Hfail. cbn [fst snd committed sink].
  eexists. split; [reflexivity |]. cbn [sink]. repeat split.
Qed.

(** When the context cannot be initialised, or the node cannot be built, the
    exception leaves [rosbasesink_change_state] without a return value, and
    the context object made so far stays in the instance. *)
Lemma open_exception_escapes (rt : Runtime) (k : RosBaseSinkClass) (w : World) :
  context_init_ok rt (S (List.length (trace w))) = false ->
  exists w',
    rosbasesink_change_state rt k GST_STATE_CHANGE_NULL_TO_READY w
    = Stop (CxxException "rclcpp::Context::init") w' /\
    ros_context (sink w') = Some {| Rclcpp.is_valid := false |}.
Proof.
  intros Hctx. rewrite change_state_null_to_ready.
  rewrite (open_context_init_throws rt k w Hctx).
  eexists. split; reflexivity.
Qed.

Lemma node_exception_escapes (rt : Runtime) (k : RosBaseSinkClass) (w : World) name ns :
  context_init_ok rt (S (List.length (trace w))) = true ->
  node_name (sink w) = Some name ->
  node_namespace (sink w) = Some ns ->
  node_create_ok rt (S (S (List.length (trace w)))) name ns = false ->
  exists w',
    rosbasesink_change_state rt k GST_STATE_CHANGE_NULL_TO_READY w
    = Stop (CxxException "rclcpp::Node::Node") w' /\
    ros_context (sink w') = Some {| Rclcpp.is_valid := true |} /\
    external_connection (sink w') = true.
Proof.
  intros Hctx Hname Hns Hnode. rewrite change_state_null_to_ready.
  rewrite (open_node_throws rt k w name ns Hctx Hname Hns Hnode).
  eexists. split; [reflexivity | split; [reflexivity |]].
  unfold external_connection, has_valid_context. cbn. apply orb_true_r.
Qed.

(** C3 (where the code departs from it).  The open hook of the class reports
    failure on a new sink: the state change returns
    [GST_STATE_CHANGE_FAILURE] and the element stays in NULL, but the node,
    the context, the logger and the clock made by [rosbasesink_open] are all
    still in the instance. *)
Theorem failed_open_keeps_node_and_context :
  current_state (parent new_instance) = GST_STATE_NULL /\
  external_connection new_instance = false /\
  exists w',
    gst_element_change_state quiet_runtime failing_open_class
      GST_STATE_CHANGE_NULL_TO_READY new_world
    = Ret GST_STATE_CHANGE_FAILURE w' /\
    w' = {| sink :=
              {| parent := parent new_instance;
                 node_name := Some "gst_base_sink_node"%string;
                 node_namespace := Some EmptyString;
                 ros_context := Some {| Rclcpp.is_valid := true |};
                 node := Some {| Rclcpp.get_name := "gst_base_sink_node";
                                 Rclcpp.get_namespace := EmptyString |};
                 logger := Some {| Rclcpp.logger_name := "gst_base_sink_node" |};
                 clock := Some {| Rclcpp.get_clock_type := Rclcpp.RCL_ROS_TIME |};
                 ros_clock_offset := 0 |};
            trace := [GstDebug "open"; InitContext;
                      NodeCreated "gst_base_sink_node" EmptyString; HookCalled HOpen;
                      GstDebug "open failed"] |} /\
    current_state (parent (sink w')) = GST_STATE_NULL /\
    has_node (sink w') = true /\
    has_valid_context (sink w') = true /\
    has_clock (sink w') = true /\
    external_connection (sink w') = true.
Proof.
  split; [reflexivity | split; [reflexivity |]].
  eexists. split; [reflexivity |]. repeat split.
Qed.

(** After the failed open the element is in NULL and yet the identity
    properties can no longer be set. *)
Example set_property_after_failed_open :
  forall w1,
    gst_element_change_state quiet_runtime failing_open_class
      GST_STATE_CHANGE_NULL_TO_READY new_world = Ret GST_STATE_CHANGE_FAILURE w1 ->
    current_state (parent (sink w1)) = GST_STATE_NULL /\
    exists w2,
      rosbasesink_set_property PROP_ROS_NAME (Some "mic"%string) w1 = Ret tt w2 /\
      node_name (sink w2) = Some "gst_base_sink_node"%string.
Proof.
  intros w1 H. injection H as <-. split; [reflexivity |].
  eexists. split; reflexivity.
Qed.

(** *** The connection and the state of the element *)

Lemma lifecycle_ok_invariant (s : RosBaseSink) : lifecycle_ok s -> connection_invariant s.
Proof.
  unfold lifecycle_ok, connection_invariant, external_connection.
  destruct (in_window (current_state (parent s))); intros [-> ->]; reflexivity.
Qed.

Lemma lifecycle_ok_new : lifecycle_ok new_instance.
Proof. split; reflexivity. Qed.

Lemma passes_through_window (tr : GstStateChange) :
  passes_through tr = true ->
  in_window (transition_next tr) = in_window (transition_current tr).
Proof. destruct tr; intros H; try discriminate; reflexivity. Qed.

Lemma GstState_eqb_eq (a b : GstState) : GstState_eqb a b = true -> a = b.
Proof. destruct a, b; intros H; try discriminate; reflexivity. Qed.

(** A state change that is requested from its source state and does not fail
    leads to a state in which the connection is as it should be. *)
Lemma transition_keeps_lifecycle (rt : Runtime) (k : RosBaseSinkClass)
    (tr : GstStateChange) (w : World) r w' :
  open_keeps_instance k ->
  transition_current tr = current_state (parent (sink w)) ->
  lifecycle_ok (sink w) ->
  gst_element_change_state rt k tr w = Ret r w' ->
  failed r = false ->
  lifecycle_ok (sink w') /\ current_state (parent (sink w')) = transition_next tr.
Proof.
  intros Hopen Hcur Hok Hcall Hr.
  rewrite gst_element_change_state_spec in Hcall.
  destruct (rosbasesink_change_state rt k tr w) as [r0 w1 | f w1] eqn:Hcs;
    [| discriminate].
  injection Hcall as -> <-.
  assert (Hstate : current_state (parent (sink (committed tr r w1))) = transition_next tr)
    by (rewrite committed_state, Hr; reflexivity).
  split; [| exact Hstate].
  unfold lifecycle_ok. rewrite Hstate.
  unfold has_node, has_valid_context.
  destruct (committed_frame tr r w1) as (_ & _ & _ & -> & ->).
  unfold lifecycle_ok, has_node, has_valid_context in Hok. rewrite <- Hcur in Hok.
  destruct (passes_through tr) eqn:Hpass.
  - rewrite (change_state_passes_through rt k tr w Hpass) in Hcs.
    injection Hcs as _ <-. cbn [sink].
    now rewrite (passes_through_window tr Hpass).
  - destruct tr; try discriminate.
    + (* NULL to READY *)
      rewrite change_state_null_to_ready in Hcs.
      destruct (rosbasesink_open rt k w) as [b w0 | f w0] eqn:Hop; [| discriminate].
      destruct (open_inv rt k w b w0 Hop) as (name & ns & n & _ & _ & Hn & _ & Hw0).
      rewrite (run_hook_keeps (open k) _ Hopen) in Hn, Hw0.
      destruct b; injection Hcs as <- <-; [| discriminate].
      subst w0. cbn. split; reflexivity.
    + (* PAUSED to PLAYING *)
      rewrite change_state_paused_to_playing in Hcs.
      injection Hcs as _ <-. exact Hok.
    + (* READY to NULL *)
      rewrite change_state_ready_to_null in Hcs.
      destruct (rosbasesink_close k _) as [b w0 | f w0] eqn:Hcl; [| discriminate].
      destruct (close_inv k _ b w0 Hcl) as (c & _ & _ & Hw0).
      injection Hcs as _ <-. subst w0. split; reflexivity.
Qed.

(** Along a run that follows the lattice and in which no state change fails,
    the connection exists exactly in READY, PAUSED and PLAYING.  (A prefix of
    such a run is such a run, so this holds at every point of it.) *)
Lemma run_keeps_lifecycle (rt : Runtime) (k : RosBaseSinkClass) :
  open_keeps_instance k ->
  forall (transitions : list GstStateChange) (w : World) rs w',
    respects_lattice (current_state (parent (sink w))) transitions = true ->
    lifecycle_ok (sink w) ->
    run rt k transitions w = Ret rs w' ->
    forallb (fun r => negb (failed r)) rs = true ->
    lifecycle_ok (sink w') /\ connection_invariant (sink w').
Proof.
  intros Hopen transitions.
  induction transitions as [| tr rest IH]; intros w rs w' Hpath Hok Hrun Hrs.
  - injection Hrun as _ <-. split; [exact Hok | now apply lifecycle_ok_invariant].
  - cbn [run] in Hrun.
    apply bind_inv in Hrun. destruct Hrun as (r & w1 & Hstep & Hrest).
    apply bind_inv in Hrest. destruct Hrest as (rs' & w2 & Hrest & Hret).
    injection Hret as <- <-.
    cbn [respects_lattice] in Hpath. apply andb_true_iff in Hpath.
    destruct Hpath as [Hsrc Hpath]. apply GstState_eqb_eq in Hsrc.
    cbn [forallb] in Hrs. apply andb_true_iff in Hrs. destruct Hrs as [Hr Hrs].
    apply negb_true_iff in Hr.
    destruct (transition_keeps_lifecycle rt k tr w r w1 Hopen Hsrc Hok Hstep Hr)
      as [Hok1 Hst1].
    apply (IH w1 rs' w2); try assumption. now rewrite Hst1.
Qed.

(** A whole cycle, NULL to PLAYING and back, on a class whose hooks succeed. *)
Example full_cycle :
  exists rs w',
    run quiet_runtime plain_class
      [GST_STATE_CHANGE_NULL_TO_READY; GST_STATE_CHANGE_READY_TO_PAUSED;
       GST_STATE_CHANGE_PAUSED_TO_PLAYING; GST_STATE_CHANGE_PLAYING_TO_PAUSED;
       GST_STATE_CHANGE_PAUSED_TO_READY; GST_STATE_CHANGE_READY_TO_NULL] new_world
    = Ret rs w' /\
    forallb (fun r => negb (failed r)) rs = true /\
    current_state (parent (sink w')) = GST_STATE_NULL /\
    external_connection (sink w') = false.
Proof. eexists. eexists. split; [vm_compute; reflexivity |]. repeat split. Qed.

(** C2 (where the code departs from it).  A new sink is asked to go from
    NULL to READY, as the lattice allows, and the open hook reports failure.
    The request fails and the element is still in NULL, yet the node and a
    valid context exist: the connection is there outside its window. *)
Theorem failed_open_breaks_connection_invariant :
  connection_invariant new_instance /\
  respects_lattice (current_state (parent new_instance))
    [GST_STATE_CHANGE_NULL_TO_READY] = true /\
  exists w',
    run quiet_runtime failing_open_class [GST_STATE_CHANGE_NULL_TO_READY] new_world
    = Ret [GST_STATE_CHANGE_FAILURE] w' /\
    current_state (parent (sink w')) = GST_STATE_NULL /\
    in_window (current_state (parent (sink w'))) = false /\
    external_connection (sink w') = true /\
    ~ connection_invariant (sink w').
Proof.
  split; [reflexivity | split; [reflexivity |]].
  eexists. split; [vm_compute; reflexivity |]. repeat split. discriminate.
Qed.

(** * Further properties of the element *)

(** ** Reading the identity properties back *)

Lemma identity_property_cases (property_id : N) :
  is_identity_property property_id = true ->
  property_id = PROP_ROS_NAME \/ property_id = PROP_ROS_NAMESPACE.
Proof.
  unfold is_identity_property. intros H. apply orb_true_iff in H.
  destruct H as [H | H]; apply N.eqb_eq in H; auto.
Qed.

(** X1.  Reading an identity property back after setting it gives the value
    just set when the sink has no node, and the value stored before when it
    has one (the write was refused); reading changes nothing in the
    instance. *)
Theorem get_after_set_property :
  forall (w : World) (property_id : N) (value : gchar_p),
    is_identity_property property_id = true ->
    exists w1 w2,
      rosbasesink_set_property property_id value w = Ret tt w1 /\
      rosbasesink_get_property property_id w1
      = Ret (Some (if has_node (sink w)
                   then identity_property property_id (sink w)
                   else value)) w2 /\
      sink w2 = sink w1.
Proof.
  intros w property_id value Hid.
  unfold has_node, identity_property.
  destruct (identity_property_cases property_id Hid) as [-> | ->];
    unfold rosbasesink_set_property, rosbasesink_get_property;
    cbv [PROP_ROS_NAME PROP_ROS_NAMESPACE N.eqb Pos.eqb]; run_monad;
    destruct (node (sink w)) eqn:Hnode; run_monad;
    eexists; eexists; (split; [reflexivity |]); cbn; split; reflexivity.
Qed.

Lemma get_after_set_property_witness :
  is_identity_property PROP_ROS_NAME = true /\
  is_identity_property PROP_ROS_NAMESPACE = true /\
  (exists w1 w2,
     rosbasesink_set_property PROP_ROS_NAME (Some "mic"%string) new_world = Ret tt w1 /\
     rosbasesink_get_property PROP_ROS_NAME w1 = Ret (Some (Some "mic"%string)) w2 /\
     sink w2 = sink w1) /\
  (exists w1 w2,
     rosbasesink_set_property PROP_ROS_NAMESPACE (Some "robot"%string) open_world
     = Ret tt w1 /\
     rosbasesink_get_property PROP_ROS_NAMESPACE w1 = Ret (Some (Some EmptyString)) w2 /\
     sink w2 = sink w1).
Proof.
  split; [reflexivity | split; [reflexivity | split]].
  - exact (get_after_set_property new_world PROP_ROS_NAME (Some "mic"%string) eq_refl).
  - exact (get_after_set_property open_world PROP_ROS_NAMESPACE
             (Some "robot"%string) eq_refl).
Defined.

(** X2.  A property id other than the two identity properties (PROP_0
    included) is answered with the invalid-id warning by both accessors:
    setting changes no field, and getting leaves the caller's value as it
    was. *)
Theorem unknown_property_id_warns :
  forall (w : World) (property_id : N) (value : gchar_p),
    is_identity_property property_id = false ->
    rosbasesink_set_property property_id value w
    = Ret tt {| sink := sink w;
                trace := trace w ++ [GstDebug "set_property";
                                     WarnInvalidPropertyId property_id] |} /\
    rosbasesink_get_property property_id w
    = Ret None {| sink := sink w;
                  trace := trace w ++ [GstDebug "get_property";
                                       WarnInvalidPropertyId property_id] |}.
Proof.
  intros w property_id value Hid.
  unfold is_identity_property in Hid. apply orb_false_iff in Hid.
  destruct Hid as [Hname Hns].
  unfold rosbasesink_set_property, rosbasesink_get_property. run_monad.
  rewrite Hname, Hns. run_monad. now rewrite !app_two.
Qed.

Lemma unknown_property_id_warns_witness :
  is_identity_property PROP_0 = false /\
  rosbasesink_set_property PROP_0 (Some "mic"%string) open_world
  = Ret tt {| sink := open_instance;
              trace := [GstDebug "set_property"; WarnInvalidPropertyId PROP_0] |} /\
  rosbasesink_get_property PROP_0 open_world
  = Ret None {| sink := open_instance;
                trace := [GstDebug "get_property"; WarnInvalidPropertyId PROP_0] |}.
Proof.
  split; [reflexivity |].
  exact (unknown_property_id_warns open_world PROP_0 (Some "mic"%string) eq_refl).
Defined.

(** ** Opening: what is built, and what is left behind when it fails *)

Lemma open_null_string_world (rt : Runtime) (k : RosBaseSinkClass) (w : World) :
  context_init_ok rt (S (List.length (trace w))) = true ->
  node_name (sink w) = None \/ node_namespace (sink w) = None ->
  rosbasesink_open rt k w
  = Stop (CxxException "basic_string: construction from null")
         {| sink := set_ros_context (Some {| Rclcpp.is_valid := true |}) (sink w);
            trace := trace w ++ [GstDebug "open"; InitContext] |}.
Proof.
  intros Hctx Hnull. unfold rosbasesink_open, GST_DEBUG_OBJECT, std_string.
  do 3 step. rewrite Hctx. do 4 step. rewrite set_ros_context_twice.
  cbn [node_name node_namespace set_ros_context].
  destruct (node_name (sink w)) as [name |].
  - destruct Hnull as [Hnull | Hnull]; [discriminate |].
    step. rewrite Hnull. step. same_world.
  - step. same_world.
Qed.

(** When [rosbasesink_open] returns, the instance holds a valid context, a
    node named after the two identity properties, and that node's logger and
    clock; the properties, the parent part and the stored offset are as
    before. *)
Lemma open_postcondition (rt : Runtime) (k : RosBaseSinkClass) (w : World) b w1 :
  open_keeps_instance k ->
  rosbasesink_open rt k w = Ret b w1 ->
  exists name ns,
    node_name (sink w) = Some name /\
    node_namespace (sink w) = Some ns /\
    let n := {| Rclcpp.get_name := name; Rclcpp.get_namespace := ns |} in
    sink w1
    = set_clock (Some (node_get_clock rt n))
        (set_logger (Some (node_get_logger rt n))
           (set_node (Some n)
              (set_ros_context (Some {| Rclcpp.is_valid := true |}) (sink w)))).
Proof.
  intros Hkeep Hopen.
  destruct (open_inv rt k w b w1 Hopen) as (name & ns & n & Hname & Hns & Hn & _ & Hw1).
  rewrite (run_hook_keeps (open k) _ Hkeep) in Hn, Hw1.
  cbn [node set_node] in Hn. injection Hn as <-.
  exists name, ns. split; [exact Hname | split; [exact Hns |]].
  now subst w1.
Qed.

Lemma configure_closed {A} (name ns : gchar_p) (m : M A) (w : World) :
  node (sink w) = None ->
  (rosbasesink_set_property PROP_ROS_NAME name ;;
   rosbasesink_set_property PROP_ROS_NAMESPACE ns ;; m) w
  = m {| sink := set_node_namespace ns (set_node_name name (sink w));
         trace := trace w ++ [GstDebug "set_property"; GstDebug "set_property"] |}.
Proof.
  intros Hnode. unfold rosbasesink_set_property, GST_DEBUG_OBJECT.
  cbv [PROP_ROS_NAME PROP_ROS_NAMESPACE N.eqb Pos.eqb].
  repeat (first [step | rewrite Hnode | progress cbn [node set_node_name]]).
  now rewrite app_two.
Qed.

(** X3.  Identity set while the sink is closed is the identity of the node
    that the next open builds: after setting [ros-name] and [ros-namespace]
    and opening, in a runtime where context and node can be made and with an
    open hook that leaves the base instance alone, the node carries exactly
    the two strings, the logger and the clock are that node's, and the
    context is valid. *)
Theorem configured_identity_names_the_node :
  forall (rt : Runtime) (k : RosBaseSinkClass) (w : World) (name ns : string),
    node (sink w) = None ->
    open_keeps_instance k ->
    (forall t, context_init_ok rt t = true) ->
    (forall t, node_create_ok rt t name ns = true) ->
    let n := {| Rclcpp.get_name := name; Rclcpp.get_namespace := ns |} in
    exists b w',
      configure_and_open rt k (Some name) (Some ns) w = Ret b w' /\
      node (sink w') = Some n /\
      logger (sink w') = Some (node_get_logger rt n) /\
      clock (sink w') = Some (node_get_clock rt n) /\
      ros_context (sink w') = Some {| Rclcpp.is_valid := true |} /\
      node_name (sink w') = Some name /\
      node_namespace (sink w') = Some ns.
Proof.
  intros rt k w name ns Hnode Hkeep Hctx Hmake n.
  unfold configure_and_open. rewrite (configure_closed _ _ _ w Hnode).
  set (w0 := {| sink := set_node_namespace (Some ns) (set_node_name (Some name) (sink w));
                trace := trace w ++ [GstDebug "set_property"; GstDebug "set_property"] |}).
  assert (Hn : node (snd (run_hook (open k)
                 (set_node (Some n)
                    (set_ros_context (Some {| Rclcpp.is_valid := true |}) (sink w0)))))
               = Some n)
    by (rewrite (run_hook_keeps (open k) _ Hkeep); reflexivity).
  rewrite (open_returns rt k w0 name ns n (Hctx _) eq_refl eq_refl (Hmake _) Hn).
  rewrite (run_hook_keeps (open k) _ Hkeep).
  eexists. eexists. split; [reflexivity |]. repeat split.
Qed.

Lemma configured_identity_names_the_node_witness :
  node (sink new_world) = None /\
  open_keeps_instance plain_class /\
  exists b w',
    configure_and_open quiet_runtime plain_class (Some "mic"%string)
      (Some "robot"%string) new_world = Ret b w' /\
    node (sink w') = Some {| Rclcpp.get_name := "mic"; Rclcpp.get_namespace := "robot" |} /\
    logger (sink w') = Some {| Rclcpp.logger_name := "mic" |} /\
    clock (sink w') = Some {| Rclcpp.get_clock_type := Rclcpp.RCL_ROS_TIME |}.
Proof.
  assert (Hkeep : open_keeps_instance plain_class) by (intros s; reflexivity).
  split; [reflexivity | split; [exact Hkeep |]].
  destruct (configured_identity_names_the_node quiet_runtime plain_class new_world
              "mic"%string "robot"%string eq_refl Hkeep
              (fun _ => eq_refl) (fun _ => eq_refl))
    as (b & w' & Hcall & Hnode & Hlogger & Hclock & _).
  exists b, w'. repeat split; assumption.
Defined.

(** X4.  An identity property may be set to NULL while the sink is closed,
    and the next NULL to READY then ends in the exception of building a
    [std::string] from a null pointer: no value is returned to the pipeline,
    no node is built, and the context that was already initialised stays in
    the instance, valid. *)
Theorem null_identity_makes_open_throw :
  forall (rt : Runtime) (k : RosBaseSinkClass) (w : World) (property_id : N),
    node (sink w) = None ->
    is_identity_property property_id = true ->
    (forall t, context_init_ok rt t = true) ->
    exists w',
      (rosbasesink_set_property property_id None ;;
       gst_element_change_state rt k GST_STATE_CHANGE_NULL_TO_READY) w
      = Stop (CxxException "basic_string: construction from null") w' /\
      node (sink w') = None /\
      ros_context (sink w') = Some {| Rclcpp.is_valid := true |} /\
      current_state (parent (sink w')) = current_state (parent (sink w)).
Proof.
  intros rt k w property_id Hnode Hid Hctx.
  assert (Hset : exists s1,
             rosbasesink_set_property property_id None w
             = Ret tt {| sink := s1; trace := trace w ++ [GstDebug "set_property"] |} /\
             (node_name s1 = None \/ node_namespace s1 = None) /\
             node s1 = None /\ parent s1 = parent (sink w)).
  { destruct (identity_property_cases property_id Hid) as [-> | ->];
      unfold rosbasesink_set_property;
      cbv [PROP_ROS_NAME PROP_ROS_NAMESPACE N.eqb Pos.eqb]; run_monad;
      rewrite Hnode; run_monad; eexists; (split; [reflexivity |]); cbn; auto. }
  destruct Hset as (s1 & Hset & Hnull & Hnode1 & Hparent).
  rewrite (bind_Ret _ _ _ _ _ Hset).
  rewrite gst_element_change_state_spec, change_state_null_to_ready.
  rewrite (open_null_string_world rt k
             {| sink := s1; trace := trace w ++ [GstDebug "set_property"] |}
             (Hctx _) Hnull).
  eexists. split; [reflexivity |]. cbn. rewrite Hnode1, Hparent. repeat split.
Qed.

Lemma null_identity_makes_open_throw_witness :
  node (sink new_world) = None /\
  is_identity_property PROP_ROS_NAMESPACE = true /\
  exists w',
    (rosbasesink_set_property PROP_ROS_NAMESPACE None ;;
     gst_element_change_state quiet_runtime plain_class
       GST_STATE_CHANGE_NULL_TO_READY) new_world
    = Stop (CxxException "basic_string: construction from null") w' /\
    node (sink w') = None /\
    ros_context (sink w') = Some {| Rclcpp.is_valid := true |}.
Proof.
  split; [reflexivity | split; [reflexivity |]].
  destruct (null_identity_makes_open_throw quiet_runtime plain_class new_world
              PROP_ROS_NAMESPACE eq_refl eq_refl (fun _ => eq_refl))
    as (w' & Hcall & Hnode & Hctx & _).
  exists w'. repeat split; assumption.
Defined.

(** X5.  When [Context::init] throws, the NULL to READY request does not
    come back with a failure value: the exception leaves
    [rosbasesink_change_state] before the node is built, before the open hook
    and before the parent class is called, and the context object made for
    the attempt stays in the instance, not valid. *)
Theorem context_init_failure_escapes :
  forall (rt : Runtime) (k : RosBaseSinkClass) (w : World),
    context_init_ok rt (S (List.length (trace w))) = false ->
    gst_element_change_state rt k GST_STATE_CHANGE_NULL_TO_READY w
    = Stop (CxxException "rclcpp::Context::init")
           {| sink := set_ros_context (Some {| Rclcpp.is_valid := false |}) (sink w);
              trace := trace w ++ [GstDebug "open"] |}.
Proof.
  intros rt k w Hctx.
  rewrite gst_element_change_state_spec, change_state_null_to_ready.
  now rewrite (open_context_init_throws rt k w Hctx).
Qed.

Lemma context_init_failure_escapes_witness :
  context_init_ok no_context_runtime (S (List.length (trace new_world))) = false /\
  returned (gst_element_change_state no_context_runtime plain_class
              GST_STATE_CHANGE_NULL_TO_READY new_world) = None /\
  final_sink (gst_element_change_state no_context_runtime plain_class
                GST_STATE_CHANGE_NULL_TO_READY new_world) = None /\
  ros_context (sink (final_world
                 (gst_element_change_state no_context_runtime plain_class
                    GST_STATE_CHANGE_NULL_TO_READY new_world)))
  = Some {| Rclcpp.is_valid := false |}.
Proof.
  split; [reflexivity |].
  rewrite (context_init_failure_escapes no_context_runtime plain_class new_world eq_refl).
  repeat split.
Defined.

(** X6.  When the [rclcpp::Node] constructor throws, the request does not
    come back either, and the context initialised just before is left in the
    instance, valid, with no node beside it; the open hook and the parent
    class have not been called. *)
Theorem node_construction_failure_escapes :
  forall (rt : Runtime) (k : RosBaseSinkClass) (w : World) (name ns : string),
    context_init_ok rt (S (List.length (trace w))) = true ->
    node_name (sink w) = Some name ->
    node_namespace (sink w) = Some ns ->
    node_create_ok rt (S (S (List.length (trace w)))) name ns = false ->
    gst_element_change_state rt k GST_STATE_CHANGE_NULL_TO_READY w
    = Stop (CxxException "rclcpp::Node::Node")
           {| sink := set_ros_context (Some {| Rclcpp.is_valid := true |}) (sink w);
              trace := trace w ++ [GstDebug "open"; InitContext] |}.
Proof.
  intros rt k w name ns Hctx Hname Hns Hnode.
  rewrite gst_element_change_state_spec, change_state_null_to_ready.
  now rewrite (open_node_throws rt k w name ns Hctx Hname Hns Hnode).
Qed.

Lemma node_construction_failure_escapes_witness :
  context_init_ok no_node_runtime (S (List.length (trace new_world))) = true /\
  node_create_ok no_node_runtime (S (S (List.length (trace new_world))))
    "gst_base_sink_node" EmptyString = false /\
  returned (gst_element_change_state no_node_runtime plain_class
              GST_STATE_CHANGE_NULL_TO_READY new_world) = None /\
  has_valid_context (sink (final_world
                       (gst_element_change_state no_node_runtime plain_class
                          GST_STATE_CHANGE_NULL_TO_READY new_world))) = true /\
  has_node (sink (final_world
              (gst_element_change_state no_node_runtime plain_class
                 GST_STATE_CHANGE_NULL_TO_READY new_world))) = false.
Proof.
  split; [reflexivity | split; [reflexivity |]].
  rewrite (node_construction_failure_escapes no_node_runtime plain_class new_world
             "gst_base_sink_node" EmptyString eq_refl eq_refl eq_refl eq_refl).
  repeat split.
Defined.

(** ** Closing: after an open attempt, without one, and twice *)

Lemma open_leaves_context (rt : Runtime) (k : RosBaseSinkClass) (w : World) :
  open_keeps_instance k ->
  exists c, ros_context (sink (final_world (rosbasesink_open rt k w))) = Some c.
Proof.
  intros Hkeep.
  destruct (context_init_ok rt (S (List.length (trace w)))) eqn:Hctx;
    [| rewrite (open_context_init_throws rt k w Hctx); eexists; reflexivity].
  destruct (node_name (sink w)) as [name |] eqn:Hname;
    [| rewrite (open_null_string_world rt k w Hctx (or_introl Hname));
       eexists; reflexivity].
  destruct (node_namespace (sink w)) as [ns |] eqn:Hns;
    [| rewrite (open_null_string_world rt k w Hctx (or_intror Hns));
       eexists; reflexivity].
  destruct (node_create_ok rt (S (S (List.length (trace w)))) name ns) eqn:Hnode;
    [| rewrite (open_node_throws rt k w name ns Hctx Hname Hns Hnode);
       eexists; reflexivity].
  assert (Hn : node (snd (run_hook (open k)
                 (set_node (Some {| Rclcpp.get_name := name; Rclcpp.get_namespace := ns |})
                    (set_ros_context (Some {| Rclcpp.is_valid := true |}) (sink w)))))
               = Some {| Rclcpp.get_name := name; Rclcpp.get_namespace := ns |})
    by (rewrite (run_hook_keeps (open k) _ Hkeep); reflexivity).
  rewrite (open_returns rt k w name ns _ Hctx Hname Hns Hnode Hn).
  rewrite (run_hook_keeps (open k) _ Hkeep). eexists; reflexivity.
Qed.

(** X7.  Whatever became of an open attempt (it returned TRUE or FALSE, or
    an exception cut it short), [rosbasesink_close] run on the instance it
    left returns, and leaves no node, no valid context and no clock; the
    hooks are taken to leave the base instance alone. *)
Theorem close_after_any_open_attempt :
  forall (rt : Runtime) (k : RosBaseSinkClass) (w : World),
    open_keeps_instance k ->
    close_keeps_instance k ->
    exists b w2,
      rosbasesink_close k (final_world (rosbasesink_open rt k w)) = Ret b w2 /\
      has_node (sink w2) = false /\
      has_valid_context (sink w2) = false /\
      has_clock (sink w2) = false /\
      external_connection (sink w2) = false.
Proof.
  intros rt k w Hopen Hclose.
  destruct (open_leaves_context rt k w Hopen) as [c Hc].
  set (w1 := final_world (rosbasesink_open rt k w)) in *.
  assert (Hctx : ros_context (snd (run_hook (close k) (set_clock None (sink w1)))) = Some c)
    by (rewrite (run_hook_keeps (close k) _ Hclose); exact Hc).
  rewrite (close_returns k w1 c Hctx), (run_hook_keeps (close k) _ Hclose).
  eexists. eexists. split; [reflexivity |]. repeat split.
Qed.

Lemma close_after_any_open_attempt_witness :
  open_keeps_instance plain_class /\
  close_keeps_instance plain_class /\
  returned (rosbasesink_open no_node_runtime plain_class new_world) = None /\
  exists b w2,
    rosbasesink_close plain_class
      (final_world (rosbasesink_open no_node_runtime plain_class new_world))
    = Ret b w2 /\
    external_connection (sink w2) = false.
Proof.
  assert (Hopen : open_keeps_instance plain_class) by (intros s; reflexivity).
  assert (Hclose : close_keeps_instance plain_class) by (intros s; reflexivity).
  split; [exact Hopen | split; [exact Hclose | split; [reflexivity |]]].
  destruct (close_after_any_open_attempt no_node_runtime plain_class new_world
              Hopen Hclose) as (b & w2 & Hcall & _ & _ & _ & Hconn).
  exists b, w2. split; assumption.
Defined.

Lemma close_faults_world (k : RosBaseSinkClass) (w : World) :
  let r := run_hook (close k) (set_clock None (sink w)) in
  ros_context (snd r) = None ->
  rosbasesink_close k w
  = Stop (NullDereference "sink->ros_context")
         {| sink := set_node None (snd r);
            trace := trace w ++ [GstDebug "close"; ClockDropped]
                       ++ hook_event HClose (close k) ++ [NodeDropped] |}.
Proof.
  unfold run_hook, hook_event, rosbasesink_close, GST_DEBUG_OBJECT.
  do 3 step.
  destruct (close k) as [h |]; cbn [fst snd]; intros Hctx; repeat step;
    cbn [ros_context set_node]; rewrite Hctx; same_world.
Qed.

(** X8.  READY to NULL on an instance that was never opened (its context
    pointer is null) does not return: the parent class is called, the clock
    handle and the node pointer are cleared, the close hook runs if there is
    one, and the shutdown of the null context is a null dereference. *)
Theorem close_without_open_faults :
  forall (rt : Runtime) (k : RosBaseSinkClass) (w : World),
    ros_context (sink w) = None ->
    close_keeps_instance k ->
    gst_element_change_state rt k GST_STATE_CHANGE_READY_TO_NULL w
    = Stop (NullDereference "sink->ros_context")
           {| sink := set_node None (set_clock None (sink w));
              trace := trace w
                         ++ [ParentChangeState GST_STATE_CHANGE_READY_TO_NULL;
                             GstDebug "close"; ClockDropped]
                         ++ hook_event HClose (close k) ++ [NodeDropped] |}.
Proof.
  intros rt k w Hctx Hclose.
  rewrite gst_element_change_state_spec, change_state_ready_to_null.
  rewrite (close_faults_world k
             {| sink := sink w;
                trace := trace w ++ [ParentChangeState GST_STATE_CHANGE_READY_TO_NULL] |})
    by (cbn [sink]; rewrite (run_hook_keeps (close k) _ Hclose); exact Hctx).
  cbn [sink trace]. rewrite (run_hook_keeps (close k) _ Hclose).
  rewrite <- !app_assoc. reflexivity.
Qed.

Lemma close_without_open_faults_witness :
  ros_context (sink new_world) = None /\
  close_keeps_instance plain_class /\
  gst_element_change_state quiet_runtime plain_class
    GST_STATE_CHANGE_READY_TO_NULL new_world
  = Stop (NullDereference "sink->ros_context")
         {| sink := new_instance;
            trace := [ParentChangeState GST_STATE_CHANGE_READY_TO_NULL;
                      GstDebug "close"; ClockDropped; HookCalled HClose;
                      NodeDropped] |}.
Proof.
  assert (Hclose : close_keeps_instance plain_class) by (intros s; reflexivity).
  split; [reflexivity | split; [exact Hclose |]].
  exact (close_without_open_faults quiet_runtime plain_class new_world eq_refl Hclose).
Defined.

(** X9.  Closing twice is harmless: on an instance with a context, a second
    [rosbasesink_close] right after the first returns as well and leaves the
    instance exactly as the first close left it, the context staying shut
    down. *)
Theorem close_twice :
  forall (k : RosBaseSinkClass) (w : World) c,
    ros_context (sink w) = Some c ->
    close_keeps_instance k ->
    exists b1 w1 b2 w2,
      rosbasesink_close k w = Ret b1 w1 /\
      rosbasesink_close k w1 = Ret b2 w2 /\
      sink w2 = sink w1 /\
      ros_context (sink w2) = Some {| Rclcpp.is_valid := false |} /\
      node (sink w2) = None /\
      clock (sink w2) = None.
Proof.
  intros k w c Hc Hclose.
  assert (Hctx : ros_context (snd (run_hook (close k) (set_clock None (sink w)))) = Some c)
    by (rewrite (run_hook_keeps (close k) _ Hclose); exact Hc).
  pose proof (close_returns k w c Hctx) as H1.
  rewrite (run_hook_keeps (close k) _ Hclose) in H1.
  match type of H1 with _ = Ret ?b ?x => set (b1 := b) in H1; set (w1 := x) in H1 end.
  assert (Hctx1 : ros_context (snd (run_hook (close k) (set_clock None (sink w1))))
                  = Some (Rclcpp.shutdown c))
    by (rewrite (run_hook_keeps (close k) _ Hclose); reflexivity).
  pose proof (close_returns k w1 _ Hctx1) as H2.
  rewrite (run_hook_keeps (close k) _ Hclose) in H2.
  exists b1, w1. eexists. eexists.
  split; [exact H1 | split; [exact H2 |]]. repeat split.
Qed.

Lemma close_twice_witness :
  ros_context (sink open_world) = Some {| Rclcpp.is_valid := true |} /\
  close_keeps_instance failing_close_class /\
  exists b1 w1 b2 w2,
    rosbasesink_close failing_close_class open_world = Ret b1 w1 /\
    rosbasesink_close failing_close_class w1 = Ret b2 w2 /\
    sink w2 = sink w1.
Proof.
  assert (Hclose : close_keeps_instance failing_close_class) by (intros s; reflexivity).
  split; [reflexivity | split; [exact Hclose |]].
  destruct (close_twice failing_close_class open_world _ eq_refl Hclose)
    as (b1 & w1 & b2 & w2 & H1 & H2 & Hsame & _).
  exists b1, w1, b2, w2. repeat split; assumption.
Defined.

(** ** Chaining up to the parent class *)

Lemma chained_hook_event ev h : pick chained (hook_event ev h) = [].
Proof. now destruct h. Qed.

(** X10.  A state change that returns has called the parent class exactly
    once, on the element as the sink holds it at that moment, and returns the
    parent's value; the one exception is an open that returned FALSE: then
    the parent class is not called at all and the value is
    [GST_STATE_CHANGE_FAILURE].  What the sink does of its own (the open that
    returned TRUE, the sampling of the offset) comes before the call to the
    parent, except on READY to NULL, where the close comes after it. *)
Theorem parent_class_called_once :
  forall (rt : Runtime) (k : RosBaseSinkClass) (tr : GstStateChange) (w : World) r w',
    rosbasesink_change_state rt k tr w = Ret r w' ->
    (exists ws before after,
       (* [ws]: the world in which the parent class is called *)
       match tr with
       | GST_STATE_CHANGE_NULL_TO_READY => rosbasesink_open rt k w = Ret true ws
       | GST_STATE_CHANGE_PAUSED_TO_PLAYING =>
           let v := sample_clock_offset rt (List.length (trace w))
                      (element_clock (parent (sink w))) (clock (sink w)) in
           ws = {| sink := set_ros_clock_offset v (sink w);
                   trace := trace w ++ [ClockSampled v] |}
       | _ => ws = w
       end /\
       trace ws = trace w ++ before /\
       pick chained before = [] /\
       r = parent_change_state rt (List.length (trace ws)) (parent (sink ws)) tr /\
       match tr with
       | GST_STATE_CHANGE_READY_TO_NULL =>
           exists b,
             rosbasesink_close k
               {| sink := sink ws; trace := trace ws ++ [ParentChangeState tr] |}
             = Ret b w'
       | _ => w' = {| sink := sink ws; trace := trace ws ++ [ParentChangeState tr] |}
       end /\
       trace w' = trace ws ++ [ParentChangeState tr] ++ after /\
       pick chained after = [] /\
       pick chained (trace w') = pick chained (trace w) ++ [tr] /\
       (tr = GST_STATE_CHANGE_READY_TO_NULL -> before = []) /\
       (tr <> GST_STATE_CHANGE_READY_TO_NULL -> after = [])) \/
    (exists w1,
       tr = GST_STATE_CHANGE_NULL_TO_READY /\
       rosbasesink_open rt k w = Ret false w1 /\
       r = GST_STATE_CHANGE_FAILURE /\
       w' = {| sink := sink w1; trace := trace w1 ++ [GstDebug "open failed"] |} /\
       pick chained (trace w') = pick chained (trace w)).
Proof.
  intros rt k tr w r w' Hcall.
  destruct (passes_through tr) eqn:Hpass.
  - left. rewrite (change_state_passes_through rt k tr w Hpass) in Hcall.
    injection Hcall as <- <-. exists w, [], [].
    split; [destruct tr; try discriminate; reflexivity |].
    rewrite app_nil_r.
    split; [reflexivity | split; [reflexivity | split; [reflexivity |]]].
    split; [destruct tr; try discriminate; reflexivity |].
    cbn [sink trace]. rewrite pick_app.
    split; [reflexivity | split; [reflexivity | split; [reflexivity |]]].
    split; [intros ->; discriminate | reflexivity].
  - destruct tr; try discriminate.
    + rewrite change_state_null_to_ready in Hcall.
      destruct (rosbasesink_open rt k w) as [b w1 | f w1] eqn:Hop; [| discriminate].
      destruct (open_inv rt k w b w1 Hop) as (name & ns & n & _ & _ & _ & _ & Hw1).
      assert (Htrace : trace w1 = trace w ++ [GstDebug "open"; InitContext;
                                              NodeCreated name ns]
                                     ++ hook_event HOpen (open k))
        by now rewrite Hw1.
      assert (Hchained : pick chained (trace w1) = pick chained (trace w))
        by (rewrite Htrace, !pick_app, chained_hook_event; cbn;
            now rewrite !app_nil_r).
      clear Hw1.
      destruct b; injection Hcall as <- <-.
      * left.
        exists w1, ([GstDebug "open"; InitContext; NodeCreated name ns]
                      ++ hook_event HOpen (open k)), [].
        split; [reflexivity | split; [exact Htrace |]].
        rewrite pick_app, chained_hook_event.
        split; [reflexivity | split; [reflexivity | split; [reflexivity |]]].
        cbn [sink trace]. rewrite pick_app, Hchained.
        split; [reflexivity | split; [reflexivity | split; [reflexivity |]]].
        split; [discriminate | reflexivity].
      * right. exists w1.
        split; [reflexivity | split; [reflexivity | split; [reflexivity |]]].
        split; [reflexivity |].
        cbn [sink trace]. rewrite pick_app, Hchained. cbn. apply app_nil_r.
    + left. rewrite change_state_paused_to_playing in Hcall.
      injection Hcall as <- <-.
      eexists. eexists. exists [].
      split; [reflexivity |]. cbn [sink trace].
      split; [reflexivity | split; [reflexivity |]].
      split; [rewrite length_snoc; reflexivity |].
      split; [now rewrite app_two |].
      split; [cbn [app]; now rewrite app_two |].
      split; [reflexivity |].
      split; [rewrite pick_app; reflexivity |].
      split; [discriminate | reflexivity].
    + left. rewrite change_state_ready_to_null in Hcall.
      destruct (rosbasesink_close k _) as [b w1 | f w1] eqn:Hcl; [| discriminate].
      destruct (close_inv k _ b w1 Hcl) as (c & _ & _ & Hw1).
      assert (Htrace : trace w1
                       = trace w ++ [ParentChangeState GST_STATE_CHANGE_READY_TO_NULL]
                           ++ ([GstDebug "close"; ClockDropped]
                                 ++ hook_event HClose (close k)
                                 ++ [NodeDropped;
                                     ShutdownContext "gst closing rosbasesink"]))
        by (rewrite Hw1; cbn [sink trace app]; now rewrite <- !app_assoc).
      clear Hw1.
      injection Hcall as <- <-.
      exists w, [], ([GstDebug "close"; ClockDropped] ++ hook_event HClose (close k)
                       ++ [NodeDropped; ShutdownContext "gst closing rosbasesink"]).
      split; [reflexivity |]. rewrite app_nil_r.
      split; [reflexivity | split; [reflexivity | split; [reflexivity |]]].
      split; [exists b; exact Hcl | split; [exact Htrace |]].
      rewrite Htrace, !pick_app, chained_hook_event. cbn. rewrite ?app_nil_r.
      split; [reflexivity | split; [reflexivity | split; [reflexivity |]]].
      intros H. now contradiction H.
Qed.

Lemma parent_class_called_once_witness :
  exists r w',
    rosbasesink_change_state quiet_runtime plain_class
      GST_STATE_CHANGE_READY_TO_NULL ready_world = Ret r w' /\
    r = parent_change_state quiet_runtime 0 (parent ready_instance)
          GST_STATE_CHANGE_READY_TO_NULL /\
    pick chained (trace w') = [GST_STATE_CHANGE_READY_TO_NULL] /\
    exists b,
      rosbasesink_close plain_class
        {| sink := ready_instance;
           trace := [ParentChangeState GST_STATE_CHANGE_READY_TO_NULL] |}
      = Ret b w'.
Proof.
  assert (Hcall : rosbasesink_change_state quiet_runtime plain_class
                    GST_STATE_CHANGE_READY_TO_NULL ready_world
                  = Ret GST_STATE_CHANGE_SUCCESS
                      (final_world
                         (rosbasesink_change_state quiet_runtime plain_class
                            GST_STATE_CHANGE_READY_TO_NULL ready_world)))
    by (vm_compute; reflexivity).
  eexists. eexists. split; [exact Hcall |].
  destruct (parent_class_called_once quiet_runtime plain_class
              GST_STATE_CHANGE_READY_TO_NULL ready_world _ _ Hcall)
    as [(ws & before & after & Hws & _ & _ & Hr & Hclose & _ & _ & Hchained & _)
       | (w1 & Habsurd & _)]; [| discriminate Habsurd].
  subst ws. split; [exact Hr | split; [exact Hchained | exact Hclose]].
Defined.

(** ** Time stamps *)

Lemma to_guint64_sub_gint64 (x y : Z) :
  to_guint64 (to_gint64 x - to_gint64 y) = to_guint64 (x - y).
Proof.
  unfold to_guint64. rewrite Zminus_mod.
  fold (to_guint64 (to_gint64 x)). fold (to_guint64 (to_gint64 y)).
  rewrite !to_guint64_to_gint64. unfold to_guint64. now rewrite <- Zminus_mod.
Qed.

(** X11.  Two buffers rendered on the same instance are stamped as far apart
    as their presentation times are: always so modulo 2^64, and exactly so
    (order included) when both sums PTS + base_time + offset lie in the
    signed 64-bit range. *)
Theorem timestamps_keep_spacing :
  forall (s : RosBaseSink) (b1 b2 : GstBuffer),
    to_guint64 (msg_time_nanoseconds s b2 - msg_time_nanoseconds s b1)
    = to_guint64 (pts b2 - pts b1) /\
    (is_gint64 (pts b1 + base_time (parent s) + ros_clock_offset s) ->
     is_gint64 (pts b2 + base_time (parent s) + ros_clock_offset s) ->
     msg_time_nanoseconds s b2 - msg_time_nanoseconds s b1 = pts b2 - pts b1 /\
     (pts b1 <= pts b2 -> msg_time_nanoseconds s b1 <= msg_time_nanoseconds s b2)).
Proof.
  intros s b1 b2. rewrite !msg_time_nanoseconds_spec. split.
  - rewrite to_guint64_sub_gint64. f_equal. lia.
  - intros H1 H2. rewrite !to_gint64_small by assumption. lia.
Qed.

Lemma timestamps_keep_spacing_witness :
  is_gint64 (pts timed_buffer + base_time (parent open_instance)
             + ros_clock_offset open_instance) /\
  is_gint64 (pts {| pts := 35000; payload := [] |} + base_time (parent open_instance)
             + ros_clock_offset open_instance) /\
  msg_time_nanoseconds open_instance {| pts := 35000; payload := [] |}
    - msg_time_nanoseconds open_instance timed_buffer = 33000.
Proof.
  assert (H1 : is_gint64 (pts timed_buffer + base_time (parent open_instance)
                          + ros_clock_offset open_instance))
    by (unfold is_gint64; cbn; lia).
  assert (H2 : is_gint64 (pts {| pts := 35000; payload := [] |}
                          + base_time (parent open_instance)
                          + ros_clock_offset open_instance))
    by (unfold is_gint64; cbn; lia).
  split; [exact H1 | split; [exact H2 |]].
  exact (proj1 (proj2 (timestamps_keep_spacing open_instance timed_buffer
                         {| pts := 35000; payload := [] |}) H1 H2)).
Defined.

(** X12.  With no clock in the instance, [rosbasesink_render] stops at the
    dereference of the clock for every class: the render hook, when there is
    one, is not called, and nothing is logged through the node's logger. *)
Theorem render_without_clock_faults :
  forall (k : RosBaseSinkClass) (buf : GstBuffer) (w : World),
    clock (sink w) = None ->
    rosbasesink_render k buf w
    = Stop (NullDereference "sink->clock")
           {| sink := sink w; trace := trace w ++ [GstDebug "render"] |}.
Proof.
  intros k buf w Hclock. unfold rosbasesink_render, GST_DEBUG_OBJECT.
  do 2 step. now rewrite Hclock.
Qed.

Lemma render_without_clock_faults_witness :
  clock (sink new_world) = None /\
  rosbasesink_render plain_class timed_buffer new_world
  = Stop (NullDereference "sink->clock")
         {| sink := new_instance; trace := [GstDebug "render"] |}.
Proof.
  split; [reflexivity |].
  exact (render_without_clock_faults plain_class timed_buffer new_world eq_refl).
Defined.

(** X13.  A buffer rendered on the instance that an open left is handed to
    the render hook with a time on the clock type of the node's clock, and
    with the count PTS + base_time + offset in which base time and offset are
    the ones the instance had before the open: opening does not touch the
    stored offset. *)
Theorem render_after_open :
  forall (rt : Runtime) (k : RosBaseSinkClass) h (w : World) b w1 (buf : GstBuffer),
    open_keeps_instance k ->
    render k = Some h ->
    rosbasesink_open rt k w = Ret b w1 ->
    exists name ns,
      node_name (sink w) = Some name /\
      node_namespace (sink w) = Some ns /\
      let msg_time :=
        {| Rclcpp.nanoseconds :=
             to_gint64 (pts buf + base_time (parent (sink w)) + ros_clock_offset (sink w));
           Rclcpp.time_clock_type :=
             Rclcpp.get_clock_type
               (node_get_clock rt {| Rclcpp.get_name := name;
                                     Rclcpp.get_namespace := ns |}) |} in
      rosbasesink_render k buf w1
      = Ret (fst (h (sink w1) buf msg_time))
            {| sink := snd (h (sink w1) buf msg_time);
               trace := trace w1 ++ [GstDebug "render";
                                     HookCalled (HRender buf msg_time)] |}.
Proof.
  intros rt k h w b w1 buf Hkeep Hhook Hopen.
  destruct (open_postcondition rt k w b w1 Hkeep Hopen) as (name & ns & Hname & Hns & Hs1).
  exists name, ns. split; [exact Hname | split; [exact Hns |]].
  cbv zeta in Hs1 |- *.
  assert (Hclock : clock (sink w1)
                   = Some (node_get_clock rt {| Rclcpp.get_name := name;
                                                Rclcpp.get_namespace := ns |}))
    by now rewrite Hs1.
  assert (Hnanos : msg_time_nanoseconds (sink w1) buf
                   = to_gint64 (pts buf + base_time (parent (sink w))
                                + ros_clock_offset (sink w)))
    by (rewrite msg_time_nanoseconds_spec, Hs1; reflexivity).
  unfold rosbasesink_render, GST_DEBUG_OBJECT.
  do 2 step. rewrite Hclock, Hhook, Hnanos.
  unfold call_hook. cbn [sink trace fst snd]. now rewrite app_two.
Qed.

Lemma render_after_open_witness :
  open_keeps_instance plain_class /\
  render plain_class = Some (fun s _ _ => (GST_FLOW_OK, s)) /\
  exists b w1,
    rosbasesink_open quiet_runtime plain_class new_world = Ret b w1 /\
    rosbasesink_render plain_class timed_buffer w1
    = Ret GST_FLOW_OK
          {| sink := sink w1;
             trace := trace w1 ++
               [GstDebug "render";
                HookCalled (HRender timed_buffer
                  {| Rclcpp.nanoseconds := 2000;
                     Rclcpp.time_clock_type := Rclcpp.RCL_ROS_TIME |})] |}.
Proof.
  assert (Hkeep : open_keeps_instance plain_class) by (intros s; reflexivity).
  assert (Hopen : rosbasesink_open quiet_runtime plain_class new_world
                  = Ret true (final_world
                                (rosbasesink_open quiet_runtime plain_class new_world)))
    by (vm_compute; reflexivity).
  split; [exact Hkeep | split; [reflexivity |]].
  eexists. eexists. split; [exact Hopen |].
  destruct (render_after_open quiet_runtime plain_class (fun s _ _ => (GST_FLOW_OK, s))
              new_world _ _ timed_buffer Hkeep eq_refl Hopen)
    as (name & ns & Hname & Hns & Hrender).
  injection Hname as <-. injection Hns as <-. exact Hrender.
Defined.

(** ** Whole runs *)

Lemma path_end_cons (st : GstState) (tr : GstStateChange) (rest : list GstStateChange) :
  path_end st (tr :: rest) = path_end (transition_next tr) rest.
Proof. reflexivity. Qed.

(** X14.  Along a run of requests that follows the lattice and in which no
    state change fails, started where the connection is as it should be, the
    element ends in the state the requests lead to, and the node and a valid
    context exist exactly when that state is READY, PAUSED or PLAYING.  The
    open hook is taken to leave the base instance alone. *)
Theorem connection_follows_state_along_run :
  forall (rt : Runtime) (k : RosBaseSinkClass),
    open_keeps_instance k ->
    forall (transitions : list GstStateChange) (w : World) rs w',
      respects_lattice (current_state (parent (sink w))) transitions = true ->
      lifecycle_ok (sink w) ->
      run rt k transitions w = Ret rs w' ->
      forallb (fun r => negb (failed r)) rs = true ->
      current_state (parent (sink w'))
      = path_end (current_state (parent (sink w))) transitions /\
      has_node (sink w') = in_window (current_state (parent (sink w'))) /\
      has_valid_context (sink w') = in_window (current_state (parent (sink w'))).
Proof.
  intros rt k Hopen transitions.
  induction transitions as [| tr rest IH]; intros w rs w' Hpath Hok Hrun Hrs.
  - injection Hrun as _ <-. split; [reflexivity |].
    unfold lifecycle_ok in Hok.
    destruct (in_window (current_state (parent (sink w)))); exact Hok.
  - cbn [run] in Hrun.
    apply bind_inv in Hrun. destruct Hrun as (r & w1 & Hstep & Hrest).
    apply bind_inv in Hrest. destruct Hrest as (rs' & w2 & Hrest & Hret).
    injection Hret as <- <-.
    cbn [respects_lattice] in Hpath. apply andb_true_iff in Hpath.
    destruct Hpath as [Hsrc Hpath]. apply GstState_eqb_eq in Hsrc.
    cbn [forallb] in Hrs. apply andb_true_iff in Hrs. destruct Hrs as [Hr Hrs].
    apply negb_true_iff in Hr.
    destruct (transition_keeps_lifecycle rt k tr w r w1 Hopen Hsrc Hok Hstep Hr)
      as [Hok1 Hst1].
    rewrite path_end_cons, <- Hst1.
    apply (IH w1 rs' w2); try assumption. now rewrite Hst1.
Qed.

Lemma connection_follows_state_along_run_witness :
  open_keeps_instance plain_class /\
  respects_lattice (current_state (parent (sink new_world))) whole_session = true /\
  lifecycle_ok (sink new_world) /\
  exists rs w',
    run quiet_runtime plain_class whole_session new_world = Ret rs w' /\
    forallb (fun r => negb (failed r)) rs = true /\
    current_state (parent (sink w')) = GST_STATE_NULL /\
    has_node (sink w') = in_window (current_state (parent (sink w'))) /\
    has_valid_context (sink w') = in_window (current_state (parent (sink w'))).
Proof.
  assert (Hkeep : open_keeps_instance plain_class) by (intros s; reflexivity).
  assert (Hrun : run quiet_runtime plain_class whole_session new_world
                 = Ret (map (fun _ => GST_STATE_CHANGE_SUCCESS) whole_session)
                       (final_world (run quiet_runtime plain_class whole_session
                                       new_world)))
    by (vm_compute; reflexivity).
  split; [exact Hkeep | split; [reflexivity | split; [exact lifecycle_ok_new |]]].
  eexists. eexists. split; [exact Hrun |]. split; [reflexivity |].
  exact (connection_follows_state_along_run quiet_runtime plain_class Hkeep
           whole_session new_world _ _ eq_refl lifecycle_ok_new Hrun eq_refl).
Defined.

Lemma last_cons_default {X} (a : X) (l : list X) (d : X) : last (a :: l) d = last l a.
Proof.
  revert a d. induction l as [| b l IH]; intros a d; [reflexivity |].
  change (last (a :: b :: l) d) with (last (b :: l) d).
  now rewrite (IH b d), (IH b a).
Qed.

Lemma last_app_default {X} (l1 l2 : list X) (d : X) :
  last (l1 ++ l2) d = last l2 (last l1 d).
Proof.
  revert d. induction l1 as [| a l1 IH]; intros d; [reflexivity |].
  cbn [app]. now rewrite !last_cons_default, IH.
Qed.

(** What one request does to the samples and to the stored offset. *)
Lemma request_and_offset (rt : Runtime) (k : RosBaseSinkClass)
    (tr : GstStateChange) (w : World) r w1 :
  open_keeps_instance k ->
  close_keeps_instance k ->
  gst_element_change_state rt k tr w = Ret r w1 ->
  exists new,
    samples (trace w1) = samples (trace w) ++ new /\
    List.length new = List.length (filter is_playing_entry [tr]) /\
    ros_clock_offset (sink w1) = last new (ros_clock_offset (sink w)).
Proof.
  intros Hopen Hclose Hstep.
  destruct (is_playing_entry tr) eqn:Hentry.
  - assert (tr = GST_STATE_CHANGE_PAUSED_TO_PLAYING) as ->
      by (destruct tr; try discriminate; reflexivity).
    destruct (enter_playing rt k w) as (r0 & w0 & H0 & Ht & Ho & _).
    rewrite H0 in Hstep. injection Hstep as <- <-.
    eexists. rewrite Ht, samples_app. split; [reflexivity |].
    split; [reflexivity | exact Ho].
  - assert (Htr : tr <> GST_STATE_CHANGE_PAUSED_TO_PLAYING)
      by (intros ->; discriminate).
    rewrite gst_element_change_state_spec in Hstep.
    destruct (rosbasesink_change_state rt k tr w) as [r0 w0 | f w0] eqn:Hcs;
      [| discriminate].
    injection Hstep as <- <-.
    destruct (offset_untouched_elsewhere rt k tr w r0 w0 Htr Hopen Hclose Hcs)
      as [Hoff Hsam].
    exists []. rewrite committed_trace, app_nil_r.
    destruct (committed_frame tr r0 w0) as (_ & _ & -> & _).
    cbn [filter]. rewrite Hentry. repeat split; assumption.
Qed.

(** X15.  Along any run of requests that return, the clock is sampled once
    for each PAUSED to PLAYING request and at no other time, and the stored
    offset at the end is the latest of those samples, or the offset the run
    started with when there was none: a close followed by an open keeps the
    offset of the session before.  The open and close hooks are taken to
    leave the base instance alone. *)
Theorem stored_offset_is_latest_sample :
  forall (rt : Runtime) (k : RosBaseSinkClass),
    open_keeps_instance k ->
    close_keeps_instance k ->
    forall (transitions : list GstStateChange) (w : World) rs w',
      run rt k transitions w = Ret rs w' ->
      exists new,
        samples (trace w') = samples (trace w) ++ new /\
        List.length new = List.length (filter is_playing_entry transitions) /\
        ros_clock_offset (sink w') = last new (ros_clock_offset (sink w)).
Proof.
  intros rt k Hopen Hclose transitions.
  induction transitions as [| tr rest IH]; intros w rs w' Hrun.
  - injection Hrun as _ <-. exists []. rewrite app_nil_r. repeat split.
  - cbn [run] in Hrun.
    apply bind_inv in Hrun. destruct Hrun as (r & w1 & Hstep & Hrest).
    apply bind_inv in Hrest. destruct Hrest as (rs' & w2 & Hrest & Hret).
    injection Hret as <- <-.
    destruct (request_and_offset rt k tr w r w1 Hopen Hclose Hstep)
      as (new1 & Hs1 & Hl1 & Ho1).
    destruct (IH w1 rs' w2 Hrest) as (new2 & Hs2 & Hl2 & Ho2).
    exists (new1 ++ new2).
    rewrite Hs2, Hs1, <- app_assoc. split; [reflexivity |].
    rewrite length_app, Hl1, Hl2, last_app_default, <- Ho1.
    split; [| exact Ho2].
    cbn [filter]. destruct (is_playing_entry tr); reflexivity.
Qed.

Lemma stored_offset_is_latest_sample_witness :
  open_keeps_instance plain_class /\
  close_keeps_instance plain_class /\
  exists rs w',
    run quiet_runtime plain_class
      [GST_STATE_CHANGE_READY_TO_NULL; GST_STATE_CHANGE_NULL_TO_READY] ready_world
    = Ret rs w' /\
    exists new,
      samples (trace w') = samples (trace ready_world) ++ new /\
      List.length new = 0%nat /\
      ros_clock_offset (sink w') = last new 1000000.
Proof.
  assert (Hopen : open_keeps_instance plain_class) by (intros s; reflexivity).
  assert (Hclose : close_keeps_instance plain_class) by (intros s; reflexivity).
  assert (Hrun : run quiet_runtime plain_class
                   [GST_STATE_CHANGE_READY_TO_NULL; GST_STATE_CHANGE_NULL_TO_READY]
                   ready_world
                 = Ret [GST_STATE_CHANGE_SUCCESS; GST_STATE_CHANGE_SUCCESS]
                       (final_world
                          (run quiet_runtime plain_class
                             [GST_STATE_CHANGE_READY_TO_NULL;
                              GST_STATE_CHANGE_NULL_TO_READY] ready_world)))
    by (vm_compute; reflexivity).
  split; [exact Hopen | split; [exact Hclose |]].
  eexists. eexists. split; [exact Hrun |].
  exact (stored_offset_is_latest_sample quiet_runtime plain_class Hopen Hclose
           _ ready_world _ _ Hrun).
Defined.

(** ** When the parent class fails *)

Lemma released_hook_open h : pick released (hook_event HOpen h) = [].
Proof. now destruct h. Qed.

(** X16.  When the open succeeded and the parent class then fails NULL to
    READY, the failure is passed on and the element stays where it was, but
    nothing of what the open built is given back: the node and the valid
    context remain and no release appears in the trace.  The open hook is
    taken to leave the base instance alone. *)
Theorem parent_failure_after_open_keeps_connection :
  forall (rt : Runtime) (k : RosBaseSinkClass) (w w1 : World),
    open_keeps_instance k ->
    rosbasesink_open rt k w = Ret true w1 ->
    parent_change_state rt (List.length (trace w1)) (parent (sink w1))
      GST_STATE_CHANGE_NULL_TO_READY = GST_STATE_CHANGE_FAILURE ->
    exists w',
      gst_element_change_state rt k GST_STATE_CHANGE_NULL_TO_READY w
      = Ret GST_STATE_CHANGE_FAILURE w' /\
      current_state (parent (sink w')) = current_state (parent (sink w)) /\
      has_node (sink w') = true /\
      has_valid_context (sink w') = true /\
      has_clock (sink w') = true /\
      pick released (trace w') = pick released (trace w).
Proof.
  intros rt k w w1 Hkeep Hopen Hparent.
  rewrite gst_element_change_state_spec, change_state_null_to_ready, Hopen, Hparent.
  destruct (open_postcondition rt k w true w1 Hkeep Hopen)
    as (name & ns & _ & _ & Hs1).
  destruct (open_inv rt k w true w1 Hopen) as (name' & ns' & n & _ & _ & _ & _ & Hw1).
  assert (Htrace : trace w1 = trace w ++ [GstDebug "open"; InitContext;
                                          NodeCreated name' ns']
                                 ++ hook_event HOpen (open k))
    by now rewrite Hw1.
  clear Hw1. cbv zeta in Hs1.
  eexists. split; [reflexivity |]. cbn [committed sink trace].
  rewrite Htrace, !pick_app, released_hook_open, Hs1.
  cbn. rewrite !app_nil_r. repeat split.
Qed.

Lemma parent_failure_after_open_keeps_connection_witness :
  open_keeps_instance plain_class /\
  exists w1 w',
    rosbasesink_open failing_parent_runtime plain_class new_world = Ret true w1 /\
    gst_element_change_state failing_parent_runtime plain_class
      GST_STATE_CHANGE_NULL_TO_READY new_world = Ret GST_STATE_CHANGE_FAILURE w' /\
    current_state (parent (sink w')) = GST_STATE_NULL /\
    has_node (sink w') = true /\
    has_valid_context (sink w') = true.
Proof.
  assert (Hkeep : open_keeps_instance plain_class) by (intros s; reflexivity).
  assert (Hopen : rosbasesink_open failing_parent_runtime plain_class new_world
                  = Ret true
                      (final_world
                         (rosbasesink_open failing_parent_runtime plain_class new_world)))
    by (vm_compute; reflexivity).
  split; [exact Hkeep |].
  destruct (parent_failure_after_open_keeps_connection failing_parent_runtime
              plain_class new_world _ Hkeep Hopen eq_refl)
    as (w' & Hcall & Hstate & Hnode & Hctx & _).
  eexists. exists w'. split; [exact Hopen |]. repeat split; assumption.
Defined.

(** X17.  When the parent class fails READY to NULL, the failure is passed
    on and the element stays where it was, yet the close has run all the
    same: the node, the clock and the validity of the context are gone.  The
    close hook is taken to leave the base instance alone. *)
Theorem parent_failure_on_close_still_closes :
  forall (rt : Runtime) (k : RosBaseSinkClass) (w : World) c,
    close_keeps_instance k ->
    ros_context (sink w) = Some c ->
    parent_change_state rt (List.length (trace w)) (parent (sink w))
      GST_STATE_CHANGE_READY_TO_NULL = GST_STATE_CHANGE_FAILURE ->
    exists w',
      gst_element_change_state rt k GST_STATE_CHANGE_READY_TO_NULL w
      = Ret GST_STATE_CHANGE_FAILURE w' /\
      current_state (parent (sink w')) = current_state (parent (sink w)) /\
      has_node (sink w') = false /\
      has_valid_context (sink w') = false /\
      has_clock (sink w') = false.
Proof.
  intros rt k w c Hkeep Hc Hparent.
  rewrite gst_element_change_state_spec, change_state_ready_to_null, Hparent.
  assert (Hctx : ros_context
                   (snd (run_hook (close k)
                           (set_clock None
                              (sink {| sink := sink w;
                                       trace := trace w ++
                                         [ParentChangeState
                                            GST_STATE_CHANGE_READY_TO_NULL] |}))))
                 = Some c)
    by (rewrite (run_hook_keeps (close k) _ Hkeep); exact Hc).
  rewrite (close_returns k _ c Hctx), (run_hook_keeps (close k) _ Hkeep).
  eexists. split; [reflexivity |]. repeat split.
Qed.

Lemma parent_failure_on_close_still_closes_witness :
  close_keeps_instance plain_class /\
  ros_context (sink ready_world) = Some {| Rclcpp.is_valid := true |} /\
  exists w',
    gst_element_change_state failing_parent_runtime plain_class
      GST_STATE_CHANGE_READY_TO_NULL ready_world = Ret GST_STATE_CHANGE_FAILURE w' /\
    current_state (parent (sink w')) = GST_STATE_READY /\
    has_node (sink w') = false /\
    has_valid_context (sink w') = false.
Proof.
  assert (Hkeep : close_keeps_instance plain_class) by (intros s; reflexivity).
  split; [exact Hkeep | split; [reflexivity |]].
  destruct (parent_failure_on_close_still_closes failing_parent_runtime plain_class
              ready_world _ Hkeep eq_refl eq_refl)
    as (w' & Hcall & Hstate & Hnode & Hctx & _).
  exists w'. repeat split; assumption.
Defined.
